(** * supabaseauth: the authentication layer, embedded and verified

    The development follows the source tree:

    - [Js]                  the few JavaScript values the code inspects dynamically;
    - [Types]               features/auth/types/auth.types.ts;
    - [Supabase]            the answers of the vendor SDK, as far as the adapter reads them;
    - [AuthAdapter]         features/auth/adapters/AuthAdapter.interface.ts;
    - [SupabaseAuthAdapter] features/auth/adapters/SupabaseAuthAdapter.ts;
    - [AuthContext]         features/auth/context/AuthContext.tsx (the AuthProvider);
    - [ApiClient]           lib/api/apiClient.ts.

    React's [useState] cell is the state of a state monad: [setState (obj)] is
    [put], [setState (prev => ...)] is [modify].  An [async] function is cut at
    its [await]: the part before it runs when the function is called, the
    part after it when the awaited promise settles. *)

From Stdlib Require Import String List NArith Bool Arith Lia DecimalString.
From ExtLib Require Import Structures.Monad Structures.MonadState Data.Monads.StateMonad.
Import ListNotations.
Import MonadNotation.
Local Open Scope monad_scope.
Local Open Scope string_scope.

(** The list [l] without its element of index [i]: a suspended handler
    leaves the set of suspended handlers when it resumes. *)
Fixpoint remove_nth {A : Type} (i : nat) (l : list A) : list A :=
  match i, l with
  | _, [] => []
  | O, _ :: l' => l'
  | S i', x :: l' => x :: remove_nth i' l'
  end.

(* ===================================================================== *)
(** ** JavaScript values *)
(* ===================================================================== *)

Module Js.

(** A field read from an untyped ([any]) provider object: absent
    ([undefined]), explicitly [null], or a string. *)
Inductive value : Type :=
| undefined : value
| null : value
| str (s : string) : value.

(** [v !== null] *)
Definition strict_neq_null (v : value) : bool :=
  match v with
  | null => false
  | undefined | str _ => true
  end.

(** An object that reached a [catch] clause or an [error] field.  An
    instance of [Error] always has [message] (own, or inherited from
    [Error.prototype]); any other object may lack it.  [status] is the
    numeric HTTP status that the provider's errors may carry. *)
Inductive object : Type :=
| ErrorInstance (message : string) (status : option N)
| PlainObject (message : option string) (status : option N).

(** A value of static type [unknown]: what [catch (error)] binds. *)
Inductive unknown : Type :=
| Primitive (v : value)
| Object (o : object).

(** ['message' in o] *)
Definition has_message (o : object) : bool :=
  match o with
  | ErrorInstance _ _ => true
  | PlainObject (Some _) _ => true
  | PlainObject None _ => false
  end.

(** [o.message], read as a string ([undefined] shows as the empty string;
    the code only reads it where the field is known to be there). *)
Definition message_of (o : object) : string :=
  match o with
  | ErrorInstance m _ => m
  | PlainObject (Some m) _ => m
  | PlainObject None _ => ""
  end.

Definition status_of (o : object) : option N :=
  match o with
  | ErrorInstance _ s | PlainObject _ s => s
  end.

(** [o instanceof Error] *)
Definition instanceof_Error (o : object) : bool :=
  match o with
  | ErrorInstance _ _ => true
  | PlainObject _ _ => false
  end.

(** [Number.prototype.toString] on a natural number: decimal digits. *)
Definition toString (n : N) : string :=
  NilZero.string_of_uint (N.to_uint n).

(** Truthiness of a string: every string but the empty one. *)
Definition truthy (s : string) : bool :=
  match s with
  | EmptyString => false
  | String _ _ => true
  end.

(** [a || b] on strings. *)
Definition or_else (a b : string) : string :=
  if truthy a then a else b.

End Js.

(* ===================================================================== *)
(** ** features/auth/types/auth.types.ts *)
(* ===================================================================== *)

Module Types.

(** [Record<string, unknown>]: never inspected by the code, only carried. *)
Definition Metadata : Type := list (string * string).

Record User : Type := mkUser {
  id : string;
  email : string;
  emailVerified : bool;
  metadata : option Metadata
}.

Record AuthTokens : Type := mkAuthTokens {
  accessToken : string;
  refreshToken : option string;
  expiresAt : option N
}.

Record LoginCredentials : Type := mkLoginCredentials {
  login_email : string;
  login_password : string
}.

(** [SignupCredentials extends LoginCredentials] *)
Record SignupCredentials : Type := mkSignupCredentials {
  signup_login : LoginCredentials;
  signup_metadata : option Metadata
}.

Record AuthState : Type := mkAuthState {
  user : option User;
  tokens : option AuthTokens;
  isLoading : bool;
  isAuthenticated : bool
}.

Record AuthError : Type := mkAuthError {
  code : string;
  message : string;
  details : option Js.unknown
}.

(** [{ success: true; data: T } | { success: false; error: AuthError }] *)
Inductive AuthResult (T : Type) : Type :=
| Success (data : T)
| Failure (error : AuthError).
Arguments Success {T} data.
Arguments Failure {T} error.

(** The payload [{ user: User; tokens: AuthTokens }] of initialize, login
    and signup. *)
Record Session : Type := mkSession {
  session_user : User;
  session_tokens : AuthTokens
}.

End Types.

(* ===================================================================== *)
(** ** The vendor SDK, seen from the adapter *)
(* ===================================================================== *)

Module Supabase.

(** The provider's user object; the adapter types it [any] and reads four
    fields. *)
Record User : Type := mkUser {
  id : string;
  email : string;
  email_confirmed_at : Js.value;
  user_metadata : option Types.Metadata
}.

Record Session : Type := mkSession {
  access_token : string;
  refresh_token : option string;
  expires_at : option N;
  user : option User
}.

(** [{ data, error }] *)
Record Response (D : Type) : Type := mkResponse {
  data : D;
  error : option Js.object
}.
Arguments mkResponse {D} data error.
Arguments data {D} r.
Arguments error {D} r.

(** [data] of signInWithPassword, signUp and refreshSession. *)
Record UserSession : Type := mkUserSession {
  data_user : option User;
  data_session : option Session
}.

(** What an awaited SDK call does inside a [try] block: it returns its
    response, or throws. *)
Inductive outcome (A : Type) : Type :=
| Returns (a : A)
| Throws (e : Js.unknown).
Arguments Returns {A} a.
Arguments Throws {A} e.

(** [client.auth]: one answer per method, as a stub of the SDK gives it. *)
Record Client : Type := mkClient {
  getSession : outcome (Response (option Session));
  signInWithPassword : string -> string -> outcome (Response UserSession);
  signUp : string -> string -> option Types.Metadata -> outcome (Response UserSession);
  signOut : outcome (Response unit);
  getUser : outcome (Response (option User));
  refreshSession : outcome (Response UserSession);
  resetPasswordForEmail : string -> outcome (Response unit);
  updateUser : string -> outcome (Response unit)
}.

End Supabase.

(* ===================================================================== *)
(** ** features/auth/adapters/AuthAdapter.interface.ts *)
(* ===================================================================== *)

Module AuthAdapter.
Import Types.

(** The contract of a provider.  Every method is a promise in the source;
    here it is the value the promise resolves to.  [onAuthStateChange]
    registers a callback: its calls are the [AuthStateChange] events of
    [AuthContext]. *)
Record t : Type := mk {
  initialize : AuthResult (option Session);
  login : LoginCredentials -> AuthResult Session;
  signup : SignupCredentials -> AuthResult Session;
  logout : AuthResult unit;
  getCurrentUser : AuthResult (option User);
  getAccessToken : option string;
  refreshToken : AuthResult AuthTokens;
  requestPasswordReset : string -> AuthResult unit;
  updatePassword : string -> AuthResult unit
}.

End AuthAdapter.

(* ===================================================================== *)
(** ** features/auth/adapters/SupabaseAuthAdapter.ts *)
(* ===================================================================== *)

Module SupabaseAuthAdapter.
Import Types.

Definition mapUser (supabaseUser : Supabase.User) : User :=
  {| id := Supabase.id supabaseUser;
     email := Supabase.email supabaseUser;
     emailVerified := Js.strict_neq_null (Supabase.email_confirmed_at supabaseUser);
     metadata := Supabase.user_metadata supabaseUser |}.

Definition mapTokens (session : Supabase.Session) : AuthTokens :=
  {| accessToken := Supabase.access_token session;
     refreshToken := Supabase.refresh_token session;
     expiresAt := Supabase.expires_at session |}.

(** [typeof error === 'object' && error !== null && 'message' in error] *)
Definition isSupabaseError (error : Js.unknown) : bool :=
  match error with
  | Js.Primitive _ => false
  | Js.Object o => Js.has_message o
  end.

(** [error.status?.toString()], with [undefined] shown as the empty
    string, which is as falsy as [undefined] under [||]. *)
Definition status_toString (o : Js.object) : string :=
  match Js.status_of o with
  | Some n => Js.toString n
  | None => ""
  end.

Definition handleError {T} (error : Js.unknown) : AuthResult T :=
  match error with
  | Js.Object o =>
      if isSupabaseError error then
        Failure {| code := Js.or_else (status_toString o) "UNKNOWN";
                   message := Js.message_of o;
                   details := Some error |}
      else if Js.instanceof_Error o then
        Failure {| code := "UNKNOWN";
                   message := Js.message_of o;
                   details := Some error |}
      else
        Failure {| code := "UNKNOWN";
                   message := "An unknown error occurred";
                   details := Some error |}
  | Js.Primitive _ =>
      Failure {| code := "UNKNOWN";
                 message := "An unknown error occurred";
                 details := Some error |}
  end.

(** The shape shared by every method:
    [try { const { data, error } = await call; if (error) return
    this.handleError(error); body } catch (error) { return
    this.handleError(error) }]. *)
Definition guarded {D T} (call : Supabase.outcome (Supabase.Response D))
    (body : D -> AuthResult T) : AuthResult T :=
  match call with
  | Supabase.Throws e => handleError e
  | Supabase.Returns r =>
      match Supabase.error r with
      | Some o => handleError (Js.Object o)
      | None => body (Supabase.data r)
      end
  end.

Definition initialize (client : Supabase.Client) : AuthResult (option Session) :=
  guarded (Supabase.getSession client) (fun data =>
    match data with
    | None => Success None
    | Some session =>
        match Supabase.user session with
        | Some u => Success (Some {| session_user := mapUser u;
                                     session_tokens := mapTokens session |})
        | None =>
            (* mapUser reads [.id] of [undefined]: a TypeError, caught *)
            handleError (Js.Object (Js.ErrorInstance
              "Cannot read properties of undefined (reading 'id')" None))
        end
    end).

Definition login (client : Supabase.Client) (credentials : LoginCredentials)
    : AuthResult Session :=
  guarded (Supabase.signInWithPassword client
             (login_email credentials) (login_password credentials))
    (fun data =>
       match Supabase.data_session data, Supabase.data_user data with
       | Some session, Some u =>
           Success {| session_user := mapUser u;
                      session_tokens := mapTokens session |}
       | _, _ =>
           Failure {| code := "NO_SESSION";
                      message := "Login failed: no session returned";
                      details := None |}
       end).

Definition signup (client : Supabase.Client) (credentials : SignupCredentials)
    : AuthResult Session :=
  guarded (Supabase.signUp client
             (login_email (signup_login credentials))
             (login_password (signup_login credentials))
             (signup_metadata credentials))
    (fun data =>
       match Supabase.data_session data, Supabase.data_user data with
       | Some session, Some u =>
           Success {| session_user := mapUser u;
                      session_tokens := mapTokens session |}
       | _, _ =>
           Failure {| code := "NO_SESSION";
                      message := "Signup succeeded but no session. Check email for verification.";
                      details := None |}
       end).

Definition logout (client : Supabase.Client) : AuthResult unit :=
  guarded (Supabase.signOut client) (fun _ => Success tt).

Definition getCurrentUser (client : Supabase.Client) : AuthResult (option User) :=
  guarded (Supabase.getUser client) (fun data =>
    Success (match data with
             | Some u => Some (mapUser u)
             | None => None
             end)).

(** [try { ... return data.session?.access_token ?? null } catch { return null }] *)
Definition getAccessToken (client : Supabase.Client) : option string :=
  match Supabase.getSession client with
  | Supabase.Throws _ => None
  | Supabase.Returns r =>
      match Supabase.data r with
      | Some session => Some (Supabase.access_token session)
      | None => None
      end
  end.

Definition refreshToken (client : Supabase.Client) : AuthResult AuthTokens :=
  guarded (Supabase.refreshSession client) (fun data =>
    match Supabase.data_session data with
    | None => Failure {| code := "NO_SESSION";
                         message := "Token refresh failed";
                         details := None |}
    | Some session => Success (mapTokens session)
    end).

Definition requestPasswordReset (client : Supabase.Client) (email : string)
    : AuthResult unit :=
  guarded (Supabase.resetPasswordForEmail client email) (fun _ => Success tt).

Definition updatePassword (client : Supabase.Client) (newPassword : string)
    : AuthResult unit :=
  guarded (Supabase.updateUser client newPassword) (fun _ => Success tt).

(** The arguments the adapter hands to a registered callback when the SDK
    reports [(_event, session)]. *)
Definition onAuthStateChange (session : option Supabase.Session)
    : option User * option AuthTokens :=
  match session with
  | None => (None, None)
  | Some s =>
      (match Supabase.user s with
       | Some u => Some (mapUser u)
       | None => None
       end,
       Some (mapTokens s))
  end.

(** [new SupabaseAuthAdapter(url, anonKey)], over a given SDK client. *)
Definition make (client : Supabase.Client) : AuthAdapter.t :=
  {| AuthAdapter.initialize := initialize client;
     AuthAdapter.login := login client;
     AuthAdapter.signup := signup client;
     AuthAdapter.logout := logout client;
     AuthAdapter.getCurrentUser := getCurrentUser client;
     AuthAdapter.getAccessToken := getAccessToken client;
     AuthAdapter.refreshToken := refreshToken client;
     AuthAdapter.requestPasswordReset := requestPasswordReset client;
     AuthAdapter.updatePassword := updatePassword client |}.

End SupabaseAuthAdapter.

(* ===================================================================== *)
(** ** features/auth/context/AuthContext.tsx *)
(* ===================================================================== *)

Module AuthContext.
Import Types.

(** Code of the provider runs over the [useState] cell. *)
Definition M : Type -> Type := state AuthState.

(** [setState(obj)] *)
Definition setState (s : AuthState) : M unit := put s.

(** [setState((prev) => f(prev))] *)
Definition setStateWith (f : AuthState -> AuthState) : M unit :=
  modify f ;; ret tt.

(** [{ ...prev, isLoading: b }] *)
Definition with_isLoading (b : bool) (prev : AuthState) : AuthState :=
  {| user := user prev;
     tokens := tokens prev;
     isLoading := b;
     isAuthenticated := isAuthenticated prev |}.

(** The argument of [useState]. *)
Definition initialState : AuthState :=
  {| user := None; tokens := None; isLoading := true; isAuthenticated := false |}.

Definition signedOut : AuthState :=
  {| user := None; tokens := None; isLoading := false; isAuthenticated := false |}.

(** [{ success: boolean; error?: string }], the value of login and signup. *)
Record Reply : Type := mkReply {
  success : bool;
  error : option string
}.

(** *** initializeAuth *)

(** After [await adapter.initialize()]; [mounted] is the flag the effect's
    cleanup clears. *)
Definition initializeAuth_settled (mounted : bool)
    (result : AuthResult (option Session)) : M unit :=
  if negb mounted then ret tt
  else
    match result with
    | Success (Some data) =>
        setState {| user := Some (session_user data);
                    tokens := Some (session_tokens data);
                    isLoading := false;
                    isAuthenticated := true |}
    | Success None | Failure _ => setState signedOut
    end.

Definition initializeAuth (adapter : AuthAdapter.t) : M unit :=
  initializeAuth_settled true (AuthAdapter.initialize adapter).

(** *** The callback given to adapter.onAuthStateChange *)

Definition authStateChanged (u : option User) (t : option AuthTokens) : M unit :=
  setState {| user := u;
              tokens := t;
              isLoading := false;
              isAuthenticated := match u with Some _ => true | None => false end |}.

(** *** login *)

Definition login_called : M unit :=
  setStateWith (with_isLoading true).

Definition login_settled (result : AuthResult Session) : M Reply :=
  match result with
  | Success data =>
      setState {| user := Some (session_user data);
                  tokens := Some (session_tokens data);
                  isLoading := false;
                  isAuthenticated := true |} ;;
      ret {| success := true; error := None |}
  | Failure e =>
      setStateWith (with_isLoading false) ;;
      ret {| success := false; error := Some (message e) |}
  end.

Definition login (adapter : AuthAdapter.t) (credentials : LoginCredentials) : M Reply :=
  login_called ;;
  login_settled (AuthAdapter.login adapter credentials).

(** *** signup *)

Definition signup_called : M unit :=
  setStateWith (with_isLoading true).

Definition signup_settled (result : AuthResult Session) : M Reply :=
  match result with
  | Success data =>
      setState {| user := Some (session_user data);
                  tokens := Some (session_tokens data);
                  isLoading := false;
                  isAuthenticated := true |} ;;
      ret {| success := true; error := None |}
  | Failure e =>
      setStateWith (with_isLoading false) ;;
      ret {| success := false; error := Some (message e) |}
  end.

Definition signup (adapter : AuthAdapter.t) (credentials : SignupCredentials) : M Reply :=
  signup_called ;;
  signup_settled (AuthAdapter.signup adapter credentials).

(** *** logout *)

Definition logout_called : M unit :=
  setStateWith (with_isLoading true).

(** The awaited result is dropped. *)
Definition logout_settled (result : AuthResult unit) : M unit :=
  setState signedOut.

Definition logout (adapter : AuthAdapter.t) : M unit :=
  logout_called ;;
  logout_settled (AuthAdapter.logout adapter).

(** *** refreshAuth *)

(** Nothing runs before [await adapter.getCurrentUser()]. *)
Definition refreshAuth_called : M unit := ret tt.

Definition refreshAuth_settled (result : AuthResult (option User)) : M unit :=
  match result with
  | Success (Some data) =>
      setStateWith (fun prev =>
        {| user := Some data;
           tokens := tokens prev;
           isLoading := isLoading prev;
           isAuthenticated := true |})
  | Success None | Failure _ => ret tt
  end.

Definition refreshAuth (adapter : AuthAdapter.t) : M unit :=
  refreshAuth_called ;;
  refreshAuth_settled (AuthAdapter.getCurrentUser adapter).

(** *** getAccessToken *)

Definition getAccessToken (adapter : AuthAdapter.t) : option string :=
  AuthAdapter.getAccessToken adapter.

(** *** The provider over time

    Handlers run to their [await] without interruption; between two
    handlers anything else may run.  A mounted provider is its state cell,
    the calls suspended at their [await] (oldest first) and the values
    that settled calls resolved to. *)

Inductive Call : Type :=
| CallLogin (credentials : LoginCredentials)
| CallSignup (credentials : SignupCredentials)
| CallLogout
| CallRefreshAuth.

(** What the awaited adapter method resolves to. *)
Inductive Answer : Type :=
| SessionAnswer (result : AuthResult Session)
| VoidAnswer (result : AuthResult unit)
| UserAnswer (result : AuthResult (option User)).

(** What the call's own promise resolves to. *)
Inductive Value : Type :=
| Replied (r : Reply)
| Void.

Definition called (c : Call) : M unit :=
  match c with
  | CallLogin _ => login_called
  | CallSignup _ => signup_called
  | CallLogout => logout_called
  | CallRefreshAuth => refreshAuth_called
  end.

(** The rest of call [c] on answer [a]; [None] when [a] is not an answer
    of the method that [c] awaits. *)
Definition settled (c : Call) (a : Answer) : option (M Value) :=
  match c, a with
  | CallLogin _, SessionAnswer r => Some (v <- login_settled r ;; ret (Replied v))
  | CallSignup _, SessionAnswer r => Some (v <- signup_settled r ;; ret (Replied v))
  | CallLogout, VoidAnswer r => Some (logout_settled r ;; ret Void)
  | CallRefreshAuth, UserAnswer r => Some (refreshAuth_settled r ;; ret Void)
  | _, _ => None
  end.

Record Provider : Type := mkProvider {
  current : AuthState;
  inFlight : list Call;
  resolved : list (Call * Value)
}.

Definition mounted : Provider :=
  {| current := initialState; inFlight := []; resolved := [] |}.

Inductive Event : Type :=
| Initialized (stillMounted : bool) (result : AuthResult (option Session))
| AuthStateChange (u : option User) (t : option AuthTokens)
| Invoke (c : Call)
| Settle (i : nat) (a : Answer).

Definition step (p : Provider) (e : Event) : option Provider :=
  match e with
  | Initialized stillMounted result =>
      Some {| current := execState (initializeAuth_settled stillMounted result) (current p);
              inFlight := inFlight p;
              resolved := resolved p |}
  | AuthStateChange u t =>
      Some {| current := execState (authStateChanged u t) (current p);
              inFlight := inFlight p;
              resolved := resolved p |}
  | Invoke c =>
      Some {| current := execState (called c) (current p);
              inFlight := inFlight p ++ [c];
              resolved := resolved p |}
  | Settle i a =>
      match nth_error (inFlight p) i with
      | None => None
      | Some c =>
          match settled c a with
          | None => None
          | Some k =>
              let (v, s) := runState k (current p) in
              Some {| current := s;
                      inFlight := remove_nth i (inFlight p);
                      resolved := resolved p ++ [(c, v)] |}
          end
      end
  end.

Fixpoint run (es : list Event) (p : Provider) : option Provider :=
  match es with
  | [] => Some p
  | e :: es' =>
      match step p e with
      | Some p' => run es' p'
      | None => None
      end
  end.

End AuthContext.

(* ===================================================================== *)
(** ** lib/api/apiClient.ts *)
(* ===================================================================== *)

Module ApiClient.

(** The part of [InternalAxiosRequestConfig] the interceptor touches. *)
Record InternalAxiosRequestConfig : Type := mkConfig {
  url : string;
  Authorization : option string
}.

Section Client.

(** The registered functions [() => Promise<string | null>]; one
    invocation of one is one underlying token fetch. *)
Variable Getter : Type.

(** The module variable [authTokenGetter], with the getter invocations
    made so far, the request interceptors suspended at their [await]
    and the configurations handed on to axios. *)
Record t : Type := mk {
  authTokenGetter : option Getter;
  invoked : list Getter;
  suspended : list InternalAxiosRequestConfig;
  passed : list InternalAxiosRequestConfig
}.

Definition loaded : t :=
  {| authTokenGetter := None; invoked := []; suspended := []; passed := [] |}.

Definition setAuthTokenGetter (getter : Getter) (c : t) : t :=
  {| authTokenGetter := Some getter;
     invoked := invoked c;
     suspended := suspended c;
     passed := passed c |}.

(** The request interceptor up to [await authTokenGetter()]; without a
    getter it returns [config] at once. *)
Definition intercept (config : InternalAxiosRequestConfig) (c : t) : t :=
  match authTokenGetter c with
  | Some getter =>
      {| authTokenGetter := authTokenGetter c;
         invoked := invoked c ++ [getter];
         suspended := suspended c ++ [config];
         passed := passed c |}
  | None =>
      {| authTokenGetter := authTokenGetter c;
         invoked := invoked c;
         suspended := suspended c;
         passed := passed c ++ [config] |}
  end.

(** [if (token) config.headers.Authorization = `Bearer ${token}`] *)
Definition inject (token : option string) (config : InternalAxiosRequestConfig)
    : InternalAxiosRequestConfig :=
  match token with
  | Some tk =>
      if Js.truthy tk
      then {| url := url config; Authorization := Some ("Bearer " ++ tk) |}
      else config
  | None => config
  end.

(** The [i]-th suspended interceptor resumes with its token. *)
Definition resume (i : nat) (token : option string) (c : t) : option t :=
  match nth_error (suspended c) i with
  | None => None
  | Some config =>
      Some {| authTokenGetter := authTokenGetter c;
              invoked := invoked c;
              suspended := remove_nth i (suspended c);
              passed := passed c ++ [inject token config] |}
  end.

(** [n] requests issued back to back, none of them resumed. *)
Fixpoint requests (configs : list InternalAxiosRequestConfig) (c : t) : t :=
  match configs with
  | [] => c
  | config :: rest => requests rest (intercept config c)
  end.

End Client.

Arguments authTokenGetter {Getter} _.
Arguments invoked {Getter} _.
Arguments suspended {Getter} _.
Arguments passed {Getter} _.
Arguments loaded {Getter}.
Arguments setAuthTokenGetter {Getter} _ _.
Arguments intercept {Getter} _ _.
Arguments resume {Getter} _ _ _.
Arguments requests {Getter} _ _.

End ApiClient.

(* ===================================================================== *)
(** ** The error kinds of the design, and concrete values *)
(* ===================================================================== *)

Module SpecTaxonomy.

(** The six kinds that the design document lists for port failures.  This
    enumeration is the document's, not the code's: the code has the free
    string field [code] only. *)
Inductive ErrorKind : Type :=
| InvalidCredentials
| EmailUnverified
| NoSession
| OperationInProgress
| ProviderUnavailable
| Unknown.

(** Which kind a [code] string spells, read generously: the document's
    spelling or upper snake case, the style of the two literals that the
    adapter has (NO_SESSION, UNKNOWN). *)
Definition kind_of_code (code : string) : option ErrorKind :=
  if (code =? "InvalidCredentials") || (code =? "INVALID_CREDENTIALS") then Some InvalidCredentials
  else if (code =? "EmailUnverified") || (code =? "EMAIL_UNVERIFIED") then Some EmailUnverified
  else if (code =? "NoSession") || (code =? "NO_SESSION") then Some NoSession
  else if (code =? "OperationInProgress") || (code =? "OPERATION_IN_PROGRESS") then Some OperationInProgress
  else if (code =? "ProviderUnavailable") || (code =? "PROVIDER_UNAVAILABLE") then Some ProviderUnavailable
  else if (code =? "Unknown") || (code =? "UNKNOWN") then Some Unknown
  else None.

(** The kinds the document allows for a rejected login. *)
Definition login_rejection (k : ErrorKind) : bool :=
  match k with
  | InvalidCredentials | EmailUnverified | ProviderUnavailable => true
  | NoSession | OperationInProgress | Unknown => false
  end.

End SpecTaxonomy.

Module Samples.
Import Types.

Definition alice : User :=
  {| id := "u-1"; email := "a@b.com"; emailVerified := true; metadata := None |}.

Definition bob : User :=
  {| id := "u-2"; email := "b@b.com"; emailVerified := true; metadata := None |}.

Definition tokensA : AuthTokens :=
  {| accessToken := "access-A"; refreshToken := Some "refresh-A"; expiresAt := Some 1700000000%N |}.

Definition tokensB : AuthTokens :=
  {| accessToken := "access-B"; refreshToken := Some "refresh-B"; expiresAt := Some 1700003600%N |}.

(** Tokens with nothing in them. *)
Definition emptyTokens : AuthTokens :=
  {| accessToken := ""; refreshToken := None; expiresAt := None |}.

Definition credentialsA : LoginCredentials :=
  {| login_email := "a@b.com"; login_password := "correct" |}.

Definition credentialsB : LoginCredentials :=
  {| login_email := "b@b.com"; login_password := "correct" |}.

Definition signupA : SignupCredentials :=
  {| signup_login := credentialsA; signup_metadata := None |}.

Definition unavailable : AuthError :=
  {| code := "ProviderUnavailable"; message := "network down"; details := None |}.

Definition signedInAlice : AuthState :=
  {| user := Some alice; tokens := Some tokensA; isLoading := false; isAuthenticated := true |}.

(** A port stub in the style of the test double: every method answers
    with the given results. *)
Definition stub (session : AuthResult Session) (out : AuthResult unit)
    (current : AuthResult (option User)) (refreshed : AuthResult AuthTokens)
    : AuthAdapter.t :=
  {| AuthAdapter.initialize := Success None;
     AuthAdapter.login := fun _ => session;
     AuthAdapter.signup := fun _ => session;
     AuthAdapter.logout := out;
     AuthAdapter.getCurrentUser := current;
     AuthAdapter.getAccessToken := None;
     AuthAdapter.refreshToken := refreshed;
     AuthAdapter.requestPasswordReset := fun _ => Success tt;
     AuthAdapter.updatePassword := fun _ => Success tt |}.

(** The provider's user, as the SDK returns it right after a signup that
    still awaits confirmation of the address. *)
Definition unconfirmed : Supabase.User :=
  {| Supabase.id := "u-1";
     Supabase.email := "a@b.com";
     Supabase.email_confirmed_at := Js.undefined;
     Supabase.user_metadata := None |}.

Definition noAnswer {D} (d : D) : Supabase.outcome (Supabase.Response D) :=
  Supabase.Returns {| Supabase.data := d; Supabase.error := None |}.

Definition nobody : Supabase.UserSession :=
  {| Supabase.data_user := None; Supabase.data_session := None |}.

(** An SDK stub: [signIn] and [signUp] are the answers of
    signInWithPassword and signUp, every other call finds nothing. *)
Definition sdk (signIn signUp : Supabase.outcome (Supabase.Response Supabase.UserSession))
    : Supabase.Client :=
  {| Supabase.getSession := noAnswer None;
     Supabase.signInWithPassword := fun _ _ => signIn;
     Supabase.signUp := fun _ _ _ => signUp;
     Supabase.signOut := noAnswer tt;
     Supabase.getUser := noAnswer None;
     Supabase.refreshSession := noAnswer nobody;
     Supabase.resetPasswordForEmail := fun _ => noAnswer tt;
     Supabase.updateUser := fun _ => noAnswer tt |}.

(** signUp when the project requires confirmation: a user, no session,
    no error. *)
Definition awaitingConfirmation : Supabase.outcome (Supabase.Response Supabase.UserSession) :=
  noAnswer {| Supabase.data_user := Some unconfirmed; Supabase.data_session := None |}.

(** signInWithPassword on a wrong password: HTTP 400 from the provider. *)
Definition wrongPassword : Supabase.outcome (Supabase.Response Supabase.UserSession) :=
  Supabase.Returns {| Supabase.data := nobody;
                      Supabase.error := Some (Js.ErrorInstance "Invalid login credentials" (Some 400%N)) |}.

End Samples.

(* ===================================================================== *)
(** ** Predicates of the statements *)
(* ===================================================================== *)

Module Predicates.
Import Types.

(** The codes the Supabase adapter writes: its two literals, or the
    decimal digits of the HTTP status of the provider's error. *)
Definition adapter_code (c : string) : Prop :=
  c = "NO_SESSION" \/ c = "UNKNOWN" \/ exists status : N, c = Js.toString status.

(** A result is a success, or a failure with such a code. *)
Definition code_sound {T} (r : AuthResult T) : Prop :=
  match r with
  | Success _ => True
  | Failure e => adapter_code (code e)
  end.

(** The value that a method hands to handleError after its SDK call: the
    value thrown, or the error reported in the response; none when the
    call returned without error. *)
Definition raised {D} (call : Supabase.outcome (Supabase.Response D))
    : option Js.unknown :=
  match call with
  | Supabase.Throws e => Some e
  | Supabase.Returns r =>
      match Supabase.error r with
      | Some o => Some (Js.Object o)
      | None => None
      end
  end.

(** The digits of the HTTP status of [v] when [v] is an object with a
    message and a status, UNKNOWN for every other value. *)
Definition status_code (v : Js.unknown) : string :=
  match v with
  | Js.Object o =>
      if Js.has_message o then
        match Js.status_of o with
        | Some status => Js.toString status
        | None => "UNKNOWN"
        end
      else "UNKNOWN"
  | Js.Primitive _ => "UNKNOWN"
  end.

(** [e] was made from the raw value [v]: its code is the status code of
    [v], and [v] itself travels as details. *)
Definition from_raised (v : Js.unknown) (e : AuthError) : Prop :=
  code e = status_code v /\ details e = Some v.

(** [e] is a NO_SESSION failure of the adapter's own, without details. *)
Definition own_NO_SESSION (e : AuthError) : Prop :=
  code e = "NO_SESSION" /\ details e = None.

(** The TypeError that initialize catches when mapUser is given the
    absent user of a session. *)
Definition absent_user_TypeError : Js.unknown :=
  Js.Object (Js.ErrorInstance "Cannot read properties of undefined (reading 'id')" None).

(** [isAuthenticated] says whether a user is stored. *)
Definition consistent (s : AuthState) : Prop :=
  isAuthenticated s = true <-> user s <> None.

End Predicates.

(* ===================================================================== *)
(** ** features/auth/adapters/__tests__/MockAuthAdapter.ts *)
(* ===================================================================== *)

Module MockAuthAdapter.
Import Types.

(** A registered callback.  The code compares callbacks by identity
    ([cb !== callback]); a number stands for the identity. *)
Definition Callback : Type := nat.

(** One call of a callback, with its two arguments. *)
Definition Notification : Type := Callback * option User * option AuthTokens.

(** The fields of the object. *)
Record t : Type := mk {
  mockUser : option User;
  mockTokens : option AuthTokens;
  authStateCallbacks : list Callback;
  shouldFailLogin : bool;
  shouldFailSignup : bool
}.

(** [new MockAuthAdapter()] *)
Definition create : t :=
  {| mockUser := None;
     mockTokens := None;
     authStateCallbacks := [];
     shouldFailLogin := false;
     shouldFailSignup := false |}.

(** Assignments to the two public flags. *)
Definition set_shouldFailLogin (b : bool) (m : t) : t :=
  {| mockUser := mockUser m;
     mockTokens := mockTokens m;
     authStateCallbacks := authStateCallbacks m;
     shouldFailLogin := b;
     shouldFailSignup := shouldFailSignup m |}.

Definition set_shouldFailSignup (b : bool) (m : t) : t :=
  {| mockUser := mockUser m;
     mockTokens := mockTokens m;
     authStateCallbacks := authStateCallbacks m;
     shouldFailLogin := shouldFailLogin m;
     shouldFailSignup := b |}.

(** [this.authStateCallbacks.forEach(cb => cb(this.mockUser, this.mockTokens))] *)
Definition notifyAuthStateChange (m : t) : list Notification :=
  map (fun callback => (callback, mockUser m, mockTokens m)) (authStateCallbacks m).

Definition initialize (m : t) : AuthResult (option Session) :=
  match mockUser m, mockTokens m with
  | Some u, Some tk => Success (Some {| session_user := u; session_tokens := tk |})
  | _, _ => Success None
  end.

(** A method that assigns fields and notifies gives its result, the
    object afterwards and the callbacks it called, in order. *)
Definition login (credentials : LoginCredentials) (m : t)
    : AuthResult Session * t * list Notification :=
  if shouldFailLogin m then
    (Failure {| code := "MOCK_ERROR"; message := "Mock login failed"; details := None |},
     m, [])
  else
    let u := {| id := "mock-user-id";
                email := login_email credentials;
                emailVerified := true;
                metadata := None |} in
    let tk := {| accessToken := "mock-access-token";
                 refreshToken := Some "mock-refresh-token";
                 expiresAt := None |} in
    let m' := {| mockUser := Some u;
                 mockTokens := Some tk;
                 authStateCallbacks := authStateCallbacks m;
                 shouldFailLogin := shouldFailLogin m;
                 shouldFailSignup := shouldFailSignup m |} in
    (Success {| session_user := u; session_tokens := tk |},
     m', notifyAuthStateChange m').

(** [return this.login(credentials)]: the metadata is dropped. *)
Definition signup (credentials : SignupCredentials) (m : t)
    : AuthResult Session * t * list Notification :=
  if shouldFailSignup m then
    (Failure {| code := "MOCK_ERROR"; message := "Mock signup failed"; details := None |},
     m, [])
  else login (signup_login credentials) m.

Definition logout (m : t) : AuthResult unit * t * list Notification :=
  let m' := {| mockUser := None;
               mockTokens := None;
               authStateCallbacks := authStateCallbacks m;
               shouldFailLogin := shouldFailLogin m;
               shouldFailSignup := shouldFailSignup m |} in
  (Success tt, m', notifyAuthStateChange m').

Definition getCurrentUser (m : t) : AuthResult (option User) :=
  Success (mockUser m).

(** [this.mockTokens?.accessToken ?? null] *)
Definition getAccessToken (m : t) : option string :=
  match mockTokens m with
  | Some tk => Some (accessToken tk)
  | None => None
  end.

Definition refreshToken (m : t) : AuthResult AuthTokens :=
  match mockTokens m with
  | None => Failure {| code := "NO_TOKEN"; message := "No token to refresh"; details := None |}
  | Some tk => Success tk
  end.

Definition requestPasswordReset (_email : string) (m : t) : AuthResult unit :=
  Success tt.

Definition updatePassword (_newPassword : string) (m : t) : AuthResult unit :=
  Success tt.

(** [this.authStateCallbacks.push(callback)] *)
Definition onAuthStateChange (callback : Callback) (m : t) : t :=
  {| mockUser := mockUser m;
     mockTokens := mockTokens m;
     authStateCallbacks := authStateCallbacks m ++ [callback];
     shouldFailLogin := shouldFailLogin m;
     shouldFailSignup := shouldFailSignup m |}.

(** The function that onAuthStateChange returns:
    [this.authStateCallbacks = this.authStateCallbacks.filter(cb => cb !== callback)] *)
Definition unsubscribe (callback : Callback) (m : t) : t :=
  {| mockUser := mockUser m;
     mockTokens := mockTokens m;
     authStateCallbacks :=
       filter (fun cb => negb (Nat.eqb cb callback)) (authStateCallbacks m);
     shouldFailLogin := shouldFailLogin m;
     shouldFailSignup := shouldFailSignup m |}.

(** What a test may do to the object, and the object after a sequence of
    such uses. *)
Inductive Use : Type :=
| UseLogin (credentials : LoginCredentials)
| UseSignup (credentials : SignupCredentials)
| UseLogout
| UseSubscribe (callback : Callback)
| UseUnsubscribe (callback : Callback)
| UseFailLogin (b : bool)
| UseFailSignup (b : bool).

Definition after (m : t) (u : Use) : t :=
  match u with
  | UseLogin credentials => snd (fst (login credentials m))
  | UseSignup credentials => snd (fst (signup credentials m))
  | UseLogout => snd (fst (logout m))
  | UseSubscribe callback => onAuthStateChange callback m
  | UseUnsubscribe callback => unsubscribe callback m
  | UseFailLogin b => set_shouldFailLogin b m
  | UseFailSignup b => set_shouldFailSignup b m
  end.

Definition afterAll (us : list Use) (m : t) : t := fold_left after us m.

(** The object as a port that answers from its present fields, for the
    methods that read only. *)
Definition snapshot (m : t) : AuthAdapter.t :=
  {| AuthAdapter.initialize := initialize m;
     AuthAdapter.login := fun credentials => fst (fst (login credentials m));
     AuthAdapter.signup := fun credentials => fst (fst (signup credentials m));
     AuthAdapter.logout := fst (fst (logout m));
     AuthAdapter.getCurrentUser := getCurrentUser m;
     AuthAdapter.getAccessToken := getAccessToken m;
     AuthAdapter.refreshToken := refreshToken m;
     AuthAdapter.requestPasswordReset := fun address => requestPasswordReset address m;
     AuthAdapter.updatePassword := fun password => updatePassword password m |}.

End MockAuthAdapter.

(* ===================================================================== *)
(** ** The AuthProvider mounted over the MockAuthAdapter, as the tests do *)
(* ===================================================================== *)

Module MockedProvider.
Import Types AuthContext.

(** The provider registered its callback [authStateChanged] with the mock
    under the identity [me].  The mock's methods have no [await] inside:
    they run, callbacks included, when the provider calls them, before the
    provider's own [await] returns. *)
Fixpoint deliver (me : MockAuthAdapter.Callback)
    (ns : list MockAuthAdapter.Notification) : M unit :=
  match ns with
  | [] => ret tt
  | (callback, u, t) :: rest =>
      (if Nat.eqb callback me then authStateChanged u t else ret tt) ;;
      deliver me rest
  end.

(** The second effect of the provider, on mount. *)
Definition subscribe (me : MockAuthAdapter.Callback) (m : MockAuthAdapter.t)
    : MockAuthAdapter.t :=
  MockAuthAdapter.onAuthStateChange me m.

Definition initializeAuth (m : MockAuthAdapter.t) : M unit :=
  initializeAuth_settled true (MockAuthAdapter.initialize m).

Definition login (me : MockAuthAdapter.Callback) (credentials : LoginCredentials)
    (m : MockAuthAdapter.t) : M (Reply * MockAuthAdapter.t) :=
  login_called ;;
  let '(result, m', ns) := MockAuthAdapter.login credentials m in
  deliver me ns ;;
  reply <- login_settled result ;;
  ret (reply, m').

Definition signup (me : MockAuthAdapter.Callback) (credentials : SignupCredentials)
    (m : MockAuthAdapter.t) : M (Reply * MockAuthAdapter.t) :=
  signup_called ;;
  let '(result, m', ns) := MockAuthAdapter.signup credentials m in
  deliver me ns ;;
  reply <- signup_settled result ;;
  ret (reply, m').

Definition logout (me : MockAuthAdapter.Callback) (m : MockAuthAdapter.t)
    : M MockAuthAdapter.t :=
  logout_called ;;
  let '(result, m', ns) := MockAuthAdapter.logout m in
  deliver me ns ;;
  logout_settled result ;;
  ret m'.

End MockedProvider.

(* ===================================================================== *)
(** ** features/auth/adapters/index.ts and config/auth.config.ts *)
(* ===================================================================== *)

Module Adapters.

Record SupabaseSettings : Type := mkSupabaseSettings {
  url : string;
  anonKey : string
}.

Record Auth0Settings : Type := mkAuth0Settings {
  domain : string;
  auth0_clientId : string
}.

Record CognitoSettings : Type := mkCognitoSettings {
  region : string;
  userPoolId : string;
  cognito_clientId : string
}.

(** [provider] is typed as one of three literals, but it is a cast of an
    environment variable and the [switch] has a [default]: any string. *)
Record AuthConfig : Type := mkAuthConfig {
  provider : string;
  supabase : option SupabaseSettings;
  auth0 : option Auth0Settings;
  cognito : option CognitoSettings
}.

Section Factory.

(** [createClient(supabaseUrl, supabaseAnonKey, options)] of the SDK, which
    is not part of this repository: it returns a client or throws;
    [inl message] is the Error thrown. *)
Variable createClient : string -> string -> string + Supabase.Client.

(** [new SupabaseAuthAdapter(supabaseUrl, supabaseAnonKey)]: the
    constructor calls createClient and nothing else, outside any [try]. *)
Definition construct (supabaseUrl supabaseAnonKey : string) : string + AuthAdapter.t :=
  match createClient supabaseUrl supabaseAnonKey with
  | inl thrown => inl thrown
  | inr client => inr (SupabaseAuthAdapter.make client)
  end.

(** [inl message] is an Error that leaves the function: one of its own
    [throw new Error(message)], or the constructor's. *)
Definition createAuthAdapter (config : AuthConfig) : string + AuthAdapter.t :=
  if provider config =? "supabase" then
    match supabase config with
    | None => inl "Supabase configuration is required"
    | Some settings => construct (url settings) (anonKey settings)
    end
  else if provider config =? "auth0" then
    inl "Auth0 adapter not yet implemented"
  else if provider config =? "cognito" then
    inl "Cognito adapter not yet implemented"
  else
    inl ("Unknown auth provider: " ++ provider config).

End Factory.

(** [import.meta.env], as far as the configuration reads it; a variable
    that is not set is [undefined]. *)
Record ImportMetaEnv : Type := mkEnv {
  VITE_AUTH_PROVIDER : option string;
  VITE_SUPABASE_URL : option string;
  VITE_SUPABASE_ANON_KEY : option string
}.

(** [variable || fallback] *)
Definition or_default (variable : option string) (fallback : string) : string :=
  match variable with
  | Some s => Js.or_else s fallback
  | None => fallback
  end.

Definition authConfig (env : ImportMetaEnv) : AuthConfig :=
  {| provider := or_default (VITE_AUTH_PROVIDER env) "supabase";
     supabase := Some {| url := or_default (VITE_SUPABASE_URL env) "";
                         anonKey := or_default (VITE_SUPABASE_ANON_KEY env) "" |};
     auth0 := None;
     cognito := None |}.

End Adapters.

(* ===================================================================== *)
(** ** features/auth/utils/tokenStorage.ts *)
(* ===================================================================== *)

Module TokenStorage.

(** [window.localStorage], observed through getItem. *)
Definition Storage : Type := string -> option string.

Definition getItem (key : string) (s : Storage) : option string := s key.

Definition setItem (key value : string) (s : Storage) : Storage :=
  fun k => if k =? key then Some value else s k.

Definition removeItem (key : string) (s : Storage) : Storage :=
  fun k => if k =? key then None else s k.

Definition ACCESS_TOKEN_KEY : string := "auth_access_token".
Definition REFRESH_TOKEN_KEY : string := "auth_refresh_token".

Definition getAccessToken (s : Storage) : option string :=
  getItem ACCESS_TOKEN_KEY s.

Definition setAccessToken (token : string) (s : Storage) : Storage :=
  setItem ACCESS_TOKEN_KEY token s.

Definition getRefreshToken (s : Storage) : option string :=
  getItem REFRESH_TOKEN_KEY s.

Definition setRefreshToken (token : string) (s : Storage) : Storage :=
  setItem REFRESH_TOKEN_KEY token s.

Definition clearTokens (s : Storage) : Storage :=
  removeItem REFRESH_TOKEN_KEY (removeItem ACCESS_TOKEN_KEY s).

End TokenStorage.

(* ===================================================================== *)
(** ** features/auth/components/ProtectedRoute.tsx *)
(* ===================================================================== *)

Module ProtectedRoute.
Import Types.

(** What the component returns. *)
Inductive Element : Type :=
| Loading
| Navigate (to : string) (from : string)
| Children.

(** [redirectTo] is the optional prop, [location] the value of
    useLocation, [auth] the value of useAuth. *)
Definition render (redirectTo : option string) (location : string)
    (auth : AuthState) : Element :=
  let redirectTo := match redirectTo with Some to => to | None => "/login" end in
  if isLoading auth then Loading
  else if negb (isAuthenticated auth) then Navigate redirectTo location
  else Children.

End ProtectedRoute.

(* ===================================================================== *)
(** ** App.tsx: the provider's token getter in the API client *)
(* ===================================================================== *)

Module App.

(** AppInner's effect, [setAuthTokenGetter(getAccessToken)]: the getter is
    the provider's getAccessToken, named here by the port it reads. *)
Definition registerGetter (adapter : AuthAdapter.t)
    (c : ApiClient.t AuthAdapter.t) : ApiClient.t AuthAdapter.t :=
  ApiClient.setAuthTokenGetter adapter c.

(** What one call of a registered getter resolves to. *)
Definition resolve (getter : AuthAdapter.t) : option string :=
  AuthContext.getAccessToken getter.

(** One request from the interceptor's start to the hand-over to axios:
    with a getter the interceptor suspends, the getter resolves and the
    interceptor resumes; without one it returns at once. *)
Definition send (config : ApiClient.InternalAxiosRequestConfig)
    (c : ApiClient.t AuthAdapter.t) : option (ApiClient.t AuthAdapter.t) :=
  match ApiClient.authTokenGetter c with
  | Some getter =>
      ApiClient.resume (length (ApiClient.suspended c)) (resolve getter)
        (ApiClient.intercept config c)
  | None => Some (ApiClient.intercept config c)
  end.

End App.

(* ===================================================================== *)
(** ** More concrete values *)
(* ===================================================================== *)

Module Fixtures.
Import Types.

(** A confirmed user and a session of theirs, as the SDK holds them. *)
Definition confirmed : Supabase.User :=
  {| Supabase.id := "u-1";
     Supabase.email := "a@b.com";
     Supabase.email_confirmed_at := Js.str "2024-01-01T00:00:00Z";
     Supabase.user_metadata := None |}.

Definition sessionA : Supabase.Session :=
  {| Supabase.access_token := "jwt-A";
     Supabase.refresh_token := Some "refresh-A";
     Supabase.expires_at := Some 1700000000%N;
     Supabase.user := Some confirmed |}.

(** An SDK stub whose getSession gives [stored] and whose sign-in gives
    [signIn]; the other calls find nothing. *)
Definition sdk (stored : Supabase.outcome (Supabase.Response (option Supabase.Session)))
    (signIn : Supabase.outcome (Supabase.Response Supabase.UserSession))
    : Supabase.Client :=
  {| Supabase.getSession := stored;
     Supabase.signInWithPassword := fun _ _ => signIn;
     Supabase.signUp := fun _ _ _ => Samples.awaitingConfirmation;
     Supabase.signOut := Samples.noAnswer tt;
     Supabase.getUser := Samples.noAnswer None;
     Supabase.refreshSession := Samples.noAnswer Samples.nobody;
     Supabase.resetPasswordForEmail := fun _ => Samples.noAnswer tt;
     Supabase.updateUser := fun _ => Samples.noAnswer tt |}.

Definition signedIn : Supabase.outcome (Supabase.Response Supabase.UserSession) :=
  Samples.noAnswer {| Supabase.data_user := Some confirmed;
                      Supabase.data_session := Some sessionA |}.

(** An SDK stub whose refreshSession gives a new session. *)
Definition refreshing : Supabase.Client :=
  {| Supabase.getSession := Samples.noAnswer (Some sessionA);
     Supabase.signInWithPassword := fun _ _ => signedIn;
     Supabase.signUp := fun _ _ _ => Samples.awaitingConfirmation;
     Supabase.signOut := Samples.noAnswer tt;
     Supabase.getUser := Samples.noAnswer (Some confirmed);
     Supabase.refreshSession := signedIn;
     Supabase.resetPasswordForEmail := fun _ => Samples.noAnswer tt;
     Supabase.updateUser := fun _ => Samples.noAnswer tt |}.

(** A user whose address the provider marks as not confirmed, with an
    explicit null. *)
Definition explicitlyUnconfirmed : Supabase.User :=
  {| Supabase.id := "u-3";
     Supabase.email := "c@b.com";
     Supabase.email_confirmed_at := Js.null;
     Supabase.user_metadata := None |}.

(** A createClient stub that rejects an empty url and an empty key and
    otherwise gives the client [refreshing]. *)
Definition checkingCreateClient (supabaseUrl supabaseKey : string)
    : string + Supabase.Client :=
  if Js.truthy supabaseUrl then
    if Js.truthy supabaseKey then inr refreshing
    else inl "supabaseKey is required."
  else inl "supabaseUrl is required.".

Definition networkError : Js.object :=
  Js.ErrorInstance "Failed to fetch" None.

(** A mock with two listeners, one of them registered twice. *)
Definition listened : MockAuthAdapter.t :=
  MockAuthAdapter.onAuthStateChange 7
    (MockAuthAdapter.onAuthStateChange 3
       (MockAuthAdapter.onAuthStateChange 7 MockAuthAdapter.create)).

Definition emptyStorage : TokenStorage.Storage := fun _ => None.

Definition request : ApiClient.InternalAxiosRequestConfig :=
  {| ApiClient.url := "/users/me"; ApiClient.Authorization := None |}.

End Fixtures.

(* ===================================================================== *)
(** * Properties *)
(* ===================================================================== *)

Import Types.
Local Open Scope list_scope.

(** ** The adapter's mapping of users *)

(** Only an explicit null makes the flag false. *)
Lemma mapUser_unverified_iff_null :
  forall supabaseUser : Supabase.User,
    emailVerified (SupabaseAuthAdapter.mapUser supabaseUser) = false <->
    Supabase.email_confirmed_at supabaseUser = Js.null.
Proof.
  intros [i e c m]; cbn.
  destruct c; cbn; split; intros H; try reflexivity; discriminate.
Qed.

(** C10. mapUser computes emailVerified as [email_confirmed_at !== null]:
    the flag of the mapped User is true exactly when the field is not
    null, so that it is false for an explicit null and true for a
    provider user whose email_confirmed_at is absent (undefined, not
    null). *)
Theorem mapUser_absent_confirmation_counts_as_verified :
  forall supabaseUser : Supabase.User,
    (emailVerified (SupabaseAuthAdapter.mapUser supabaseUser) = true <->
     Supabase.email_confirmed_at supabaseUser <> Js.null) /\
    (Supabase.email_confirmed_at supabaseUser = Js.null ->
     emailVerified (SupabaseAuthAdapter.mapUser supabaseUser) = false) /\
    (Supabase.email_confirmed_at supabaseUser = Js.undefined ->
     emailVerified (SupabaseAuthAdapter.mapUser supabaseUser) = true).
Proof.
  intros supabaseUser.
  pose proof (mapUser_unverified_iff_null supabaseUser) as Hnull.
  split; [| split].
  - split.
    + intros Htrue Heq. apply Hnull in Heq. rewrite Htrue in Heq. discriminate Heq.
    + intros Hneq.
      destruct (emailVerified (SupabaseAuthAdapter.mapUser supabaseUser)) eqn:Hflag;
        [reflexivity |].
      elim Hneq. apply Hnull. reflexivity.
  - apply Hnull.
  - intros Habsent.
    unfold SupabaseAuthAdapter.mapUser; cbn.
    rewrite Habsent. reflexivity.
Qed.

Lemma mapUser_absent_confirmation_witness :
  emailVerified (SupabaseAuthAdapter.mapUser Samples.unconfirmed) = true /\
  emailVerified (SupabaseAuthAdapter.mapUser Fixtures.explicitlyUnconfirmed) = false /\
  emailVerified (SupabaseAuthAdapter.mapUser Fixtures.confirmed) = true.
Proof.
  split; [| split].
  - apply (proj2 (proj2 (mapUser_absent_confirmation_counts_as_verified
                           Samples.unconfirmed))).
    reflexivity.
  - apply (proj1 (proj2 (mapUser_absent_confirmation_counts_as_verified
                           Fixtures.explicitlyUnconfirmed))).
    reflexivity.
  - apply (proj2 (proj1 (mapUser_absent_confirmation_counts_as_verified
                           Fixtures.confirmed))).
    discriminate.
Defined.

(** ** The adapter's results *)

Example toString_400 : Js.toString 400 = "400".
Proof. reflexivity. Qed.

Example handleError_thrown_string :
  @SupabaseAuthAdapter.handleError unit (Js.Primitive (Js.str "boom")) =
  Failure {| code := "UNKNOWN";
             message := "An unknown error occurred";
             details := Some (Js.Primitive (Js.str "boom")) |}.
Proof. reflexivity. Qed.

Example handleError_without_status :
  @SupabaseAuthAdapter.handleError unit (Js.Object (Js.ErrorInstance "Failed to fetch" None)) =
  Failure {| code := "UNKNOWN";
             message := "Failed to fetch";
             details := Some (Js.Object (Js.ErrorInstance "Failed to fetch" None)) |}.
Proof. reflexivity. Qed.

Lemma toString_truthy : forall n : N, Js.truthy (Js.toString n) = true.
Proof.
  intros n. unfold Js.toString, NilZero.string_of_uint.
  destruct (N.to_uint n); reflexivity.
Qed.

(** handleError always fails, keeps the raw value as [details], and writes
    the status of the value as the code when it has one and a message. *)
Lemma handleError_shape :
  forall (T : Type) (error : Js.unknown),
  exists e : AuthError,
    @SupabaseAuthAdapter.handleError T error = Failure e /\
    details e = Some error /\
    (code e = "UNKNOWN" \/
     exists o status, error = Js.Object o /\ Js.status_of o = Some status /\
                      code e = Js.toString status).
Proof.
  intros T [v | o]; cbn.
  - eexists; repeat split; auto.
  - destruct (Js.has_message o) eqn:Hm.
    + eexists; repeat split. cbn.
      unfold SupabaseAuthAdapter.status_toString.
      destruct (Js.status_of o) as [status |] eqn:Hs.
      * right. exists o, status. repeat split; auto.
        unfold Js.or_else. now rewrite toString_truthy.
      * left. reflexivity.
    + destruct (Js.instanceof_Error o); eexists; repeat split; auto.
Qed.

(** The [instanceof Error] branch of handleError is never taken: an Error
    has a message, so the first test already holds. *)
Lemma instanceof_Error_isSupabaseError :
  forall o : Js.object,
    Js.instanceof_Error o = true ->
    SupabaseAuthAdapter.isSupabaseError (Js.Object o) = true.
Proof. intros [m s | m s]; cbn; [reflexivity | discriminate]. Qed.

Lemma handleError_sound :
  forall (T : Type) (error : Js.unknown),
    Predicates.code_sound (@SupabaseAuthAdapter.handleError T error).
Proof.
  intros T error.
  destruct (handleError_shape T error) as (e & -> & _ & [Hc | (o & status & _ & _ & Hc)]);
    cbn; unfold Predicates.adapter_code; rewrite Hc; eauto.
Qed.

Lemma guarded_sound :
  forall (D T : Type) (call : Supabase.outcome (Supabase.Response D))
         (body : D -> AuthResult T),
    (forall d, Predicates.code_sound (body d)) ->
    Predicates.code_sound (SupabaseAuthAdapter.guarded call body).
Proof.
  intros D T [[d [o |]] | e] body Hbody.
  - exact (handleError_sound T (Js.Object o)).
  - exact (Hbody d).
  - exact (handleError_sound T e).
Qed.

Lemma NO_SESSION_sound :
  forall (T : Type) (m : string),
    Predicates.code_sound
      (@Failure T {| code := "NO_SESSION"; message := m; details := None |}).
Proof. intros; cbn; left; reflexivity. Qed.

Ltac adapter_case :=
  first [ exact I
        | exact (handleError_sound _ _)
        | exact (NO_SESSION_sound _ _) ].

(** C7, as the code has it. When signUp answers without error and without a
    session (the provider waits for the address to be confirmed), the
    port's signup is a failure with code NO_SESSION and the message that
    tells to check the mail; it is not a success without tokens. *)
Theorem signup_without_session_is_NO_SESSION :
  forall (client : Supabase.Client) (credentials : SignupCredentials)
         (r : Supabase.Response Supabase.UserSession),
    Supabase.signUp client
      (login_email (signup_login credentials))
      (login_password (signup_login credentials))
      (signup_metadata credentials) = Supabase.Returns r ->
    Supabase.error r = None ->
    Supabase.data_session (Supabase.data r) = None ->
    SupabaseAuthAdapter.signup client credentials =
      Failure {| code := "NO_SESSION";
                 message := "Signup succeeded but no session. Check email for verification.";
                 details := None |}.
Proof.
  intros client credentials r Hcall Herr Hsession.
  unfold SupabaseAuthAdapter.signup, SupabaseAuthAdapter.guarded.
  rewrite Hcall, Herr, Hsession. reflexivity.
Qed.

Lemma signup_without_session_witness :
  SupabaseAuthAdapter.signup
    (Samples.sdk Samples.wrongPassword Samples.awaitingConfirmation) Samples.signupA =
  Failure {| code := "NO_SESSION";
             message := "Signup succeeded but no session. Check email for verification.";
             details := None |}.
Proof.
  apply (signup_without_session_is_NO_SESSION
           (Samples.sdk Samples.wrongPassword Samples.awaitingConfirmation)
           Samples.signupA
           {| Supabase.data := {| Supabase.data_user := Some Samples.unconfirmed;
                                  Supabase.data_session := None |};
              Supabase.error := None |});
    reflexivity.
Defined.

(** C7, as stated, fails: on the answer of a provider that requires
    confirmation, the port's signup is no success of any kind. *)
Lemma signup_awaiting_confirmation_is_no_success :
  ~ (exists data : Session,
       SupabaseAuthAdapter.signup
         (Samples.sdk Samples.wrongPassword Samples.awaitingConfirmation)
         Samples.signupA = Success data).
Proof. intros [data H]. vm_compute in H. discriminate H. Qed.

(** Every failure that a method of the Supabase adapter returns carries
    as code one of the literals NO_SESSION and UNKNOWN or decimal digits. *)
Lemma adapter_codes_are_literal_or_digits :
  forall (client : Supabase.Client) (lc : LoginCredentials)
         (sc : SignupCredentials) (address password : string),
    Predicates.code_sound (SupabaseAuthAdapter.initialize client) /\
    Predicates.code_sound (SupabaseAuthAdapter.login client lc) /\
    Predicates.code_sound (SupabaseAuthAdapter.signup client sc) /\
    Predicates.code_sound (SupabaseAuthAdapter.logout client) /\
    Predicates.code_sound (SupabaseAuthAdapter.getCurrentUser client) /\
    Predicates.code_sound (SupabaseAuthAdapter.refreshToken client) /\
    Predicates.code_sound (SupabaseAuthAdapter.requestPasswordReset client address) /\
    Predicates.code_sound (SupabaseAuthAdapter.updatePassword client password).
Proof.
  intros client lc sc address password.
  repeat split; apply guarded_sound; intros d.
  - destruct d as [session |]; [destruct (Supabase.user session) |];
      adapter_case.
  - destruct (Supabase.data_session d), (Supabase.data_user d); adapter_case.
  - destruct (Supabase.data_session d), (Supabase.data_user d); adapter_case.
  - adapter_case.
  - adapter_case.
  - destruct (Supabase.data_session d); adapter_case.
  - adapter_case.
  - adapter_case.
Qed.

(** What handleError makes of a raw value. *)
Lemma handleError_from_raised :
  forall (T : Type) (v : Js.unknown) (e : AuthError),
    @SupabaseAuthAdapter.handleError T v = Failure e ->
    Predicates.from_raised v e.
Proof.
  intros T [p | o] e; unfold Predicates.from_raised, Predicates.status_code.
  - cbn. intros H. injection H as <-. split; reflexivity.
  - unfold SupabaseAuthAdapter.handleError, SupabaseAuthAdapter.isSupabaseError.
    destruct (Js.has_message o) eqn:Hm.
    + intros H. injection H as <-. cbn. split; [| reflexivity].
      unfold SupabaseAuthAdapter.status_toString.
      destruct (Js.status_of o) as [status |]; [| reflexivity].
      unfold Js.or_else. now rewrite toString_truthy.
    + destruct (Js.instanceof_Error o); intros H; injection H as <-;
        split; reflexivity.
Qed.

(** A failure of a guarded method comes from the raised value, or from the
    body when nothing was raised. *)
Lemma guarded_failure :
  forall (D T : Type) (call : Supabase.outcome (Supabase.Response D))
         (body : D -> AuthResult T) (e : AuthError),
    SupabaseAuthAdapter.guarded call body = Failure e ->
    (exists v, Predicates.raised call = Some v /\ Predicates.from_raised v e) \/
    (Predicates.raised call = None /\
     exists r, call = Supabase.Returns r /\ body (Supabase.data r) = Failure e).
Proof.
  intros D T [[d [o |]] | thrown] body e H; unfold SupabaseAuthAdapter.guarded in H;
    cbn [Supabase.error Supabase.data] in H.
  - left. exists (Js.Object o). split; [reflexivity |].
    exact (handleError_from_raised T _ e H).
  - right. split; [reflexivity |]. eexists. split; [reflexivity | exact H].
  - left. exists thrown. split; [reflexivity |].
    exact (handleError_from_raised T _ e H).
Qed.

(** C6, as the code has it. Every failure that a method of the Supabase
    adapter returns is of one of two makes.  Either the SDK call threw or
    reported an error (or, in initialize, mapUser threw on the absent
    user of a session): then the failure carries that raw value as
    details and, as code, the decimal digits of the value's HTTP status
    when the value is an object with a message and a status, and UNKNOWN
    otherwise.  Or the call returned without error but without session or
    user (login, signup, refreshToken): then the code is NO_SESSION and
    there are no details.  A rejected login is of the first make. *)
Theorem adapter_failures_carry_literal_or_status :
  forall (client : Supabase.Client) (lc : LoginCredentials)
         (sc : SignupCredentials) (address password : string) (e : AuthError),
    (SupabaseAuthAdapter.initialize client = Failure e ->
     exists v,
       (Predicates.raised (Supabase.getSession client) = Some v \/
        Predicates.raised (Supabase.getSession client) = None /\
        v = Predicates.absent_user_TypeError) /\
       Predicates.from_raised v e) /\
    (SupabaseAuthAdapter.login client lc = Failure e ->
     (exists v,
        Predicates.raised
          (Supabase.signInWithPassword client (login_email lc) (login_password lc))
          = Some v /\
        Predicates.from_raised v e) \/
     (Predicates.raised
        (Supabase.signInWithPassword client (login_email lc) (login_password lc))
        = None /\
      Predicates.own_NO_SESSION e)) /\
    (SupabaseAuthAdapter.signup client sc = Failure e ->
     (exists v,
        Predicates.raised
          (Supabase.signUp client (login_email (signup_login sc))
             (login_password (signup_login sc)) (signup_metadata sc)) = Some v /\
        Predicates.from_raised v e) \/
     (Predicates.raised
        (Supabase.signUp client (login_email (signup_login sc))
           (login_password (signup_login sc)) (signup_metadata sc)) = None /\
      Predicates.own_NO_SESSION e)) /\
    (SupabaseAuthAdapter.logout client = Failure e ->
     exists v, Predicates.raised (Supabase.signOut client) = Some v /\
               Predicates.from_raised v e) /\
    (SupabaseAuthAdapter.getCurrentUser client = Failure e ->
     exists v, Predicates.raised (Supabase.getUser client) = Some v /\
               Predicates.from_raised v e) /\
    (SupabaseAuthAdapter.refreshToken client = Failure e ->
     (exists v, Predicates.raised (Supabase.refreshSession client) = Some v /\
                Predicates.from_raised v e) \/
     (Predicates.raised (Supabase.refreshSession client) = None /\
      Predicates.own_NO_SESSION e)) /\
    (SupabaseAuthAdapter.requestPasswordReset client address = Failure e ->
     exists v, Predicates.raised (Supabase.resetPasswordForEmail client address) = Some v /\
               Predicates.from_raised v e) /\
    (SupabaseAuthAdapter.updatePassword client password = Failure e ->
     exists v, Predicates.raised (Supabase.updateUser client password) = Some v /\
               Predicates.from_raised v e).
Proof.
  intros client lc sc address password e.
  split; [| split; [| split; [| split; [| split; [| split; [| split]]]]]];
    intros H; apply guarded_failure in H;
    destruct H as [(v & Hv & He) | (Hnone & r & _ & Hbody)].
  - exists v. split; [now left | exact He].
  - destruct (Supabase.data r) as [session |]; [| discriminate Hbody].
    destruct (Supabase.user session); [discriminate Hbody |].
    exists Predicates.absent_user_TypeError. split; [now right |].
    exact (handleError_from_raised _ _ e Hbody).
  - left. now exists v.
  - right. split; [exact Hnone |].
    destruct (Supabase.data_session (Supabase.data r)),
             (Supabase.data_user (Supabase.data r));
      try discriminate Hbody; injection Hbody as <-; split; reflexivity.
  - left. now exists v.
  - right. split; [exact Hnone |].
    destruct (Supabase.data_session (Supabase.data r)),
             (Supabase.data_user (Supabase.data r));
      try discriminate Hbody; injection Hbody as <-; split; reflexivity.
  - now exists v.
  - discriminate Hbody.
  - now exists v.
  - discriminate Hbody.
  - left. now exists v.
  - right. split; [exact Hnone |].
    destruct (Supabase.data_session (Supabase.data r));
      try discriminate Hbody; injection Hbody as <-; split; reflexivity.
  - now exists v.
  - discriminate Hbody.
  - now exists v.
  - discriminate Hbody.
Qed.

Lemma adapter_failures_witness :
  (exists v,
     Predicates.raised Samples.wrongPassword = Some v /\
     Predicates.from_raised v
       {| code := "400";
          message := "Invalid login credentials";
          details := Some (Js.Object (Js.ErrorInstance "Invalid login credentials"
                                                       (Some 400%N))) |}) \/
  (Predicates.raised Samples.wrongPassword = None /\
   Predicates.own_NO_SESSION
     {| code := "400";
        message := "Invalid login credentials";
        details := Some (Js.Object (Js.ErrorInstance "Invalid login credentials"
                                                     (Some 400%N))) |}).
Proof.
  apply (proj1 (proj2 (adapter_failures_carry_literal_or_status
                         (Samples.sdk Samples.wrongPassword Samples.awaitingConfirmation)
                         Samples.credentialsA Samples.signupA "a@b.com" "secret"
                         {| code := "400";
                            message := "Invalid login credentials";
                            details := Some (Js.Object
                              (Js.ErrorInstance "Invalid login credentials" (Some 400%N))) |}))).
  reflexivity.
Defined.

(** C6, as stated, fails: a login that the provider rejects with HTTP 400
    fails with code 400, which spells no kind of the taxonomy, and the raw
    provider error travels along as [details]. *)
Lemma rejected_login_carries_http_status :
  exists e : AuthError,
    SupabaseAuthAdapter.login
      (Samples.sdk Samples.wrongPassword Samples.awaitingConfirmation)
      Samples.credentialsA = Failure e /\
    code e = "400" /\
    SpecTaxonomy.kind_of_code (code e) = None /\
    details e = Some (Js.Object (Js.ErrorInstance "Invalid login credentials" (Some 400%N))).
Proof. eexists; repeat split. Qed.

(** ** The AuthProvider, one call at a time *)

Import AuthContext.

(** C1, as the code has it. On every success of the port's signup, whatever
    the tokens in it (empty ones too), signup stores the returned user and
    tokens, sets isAuthenticated, clears isLoading and answers a plain
    success without a text. *)
Theorem signup_marks_every_success_authenticated :
  forall (adapter : AuthAdapter.t) (credentials : SignupCredentials)
         (data : Session) (s : AuthState),
    AuthAdapter.signup adapter credentials = Success data ->
    runState (signup adapter credentials) s =
      ({| success := true; error := None |},
       {| user := Some (session_user data);
          tokens := Some (session_tokens data);
          isLoading := false;
          isAuthenticated := true |}).
Proof.
  intros adapter credentials data s Hport.
  unfold signup. cbn. rewrite Hport. reflexivity.
Qed.

Lemma signup_marks_every_success_witness :
  runState
    (signup (Samples.stub (Success {| session_user := Samples.alice;
                                      session_tokens := Samples.emptyTokens |})
                          (Success tt) (Success None) (Success Samples.tokensA))
            Samples.signupA)
    signedOut =
  ({| success := true; error := None |},
   {| user := Some Samples.alice;
      tokens := Some Samples.emptyTokens;
      isLoading := false;
      isAuthenticated := true |}).
Proof.
  apply (signup_marks_every_success_authenticated
           (Samples.stub (Success {| session_user := Samples.alice;
                                     session_tokens := Samples.emptyTokens |})
                         (Success tt) (Success None) (Success Samples.tokensA))
           Samples.signupA
           {| session_user := Samples.alice; session_tokens := Samples.emptyTokens |}
           signedOut).
  reflexivity.
Defined.

(** C1, as stated, fails: from the signed-out state, a port success with
    empty tokens does not leave the state anonymous, and the answer says
    nothing of a pending verification. *)
Lemma signup_with_empty_tokens_authenticates :
  let adapter :=
    Samples.stub (Success {| session_user := Samples.alice;
                             session_tokens := Samples.emptyTokens |})
                 (Success tt) (Success None) (Success Samples.tokensA) in
  let after := runState (signup adapter Samples.signupA) signedOut in
  ~ (isAuthenticated (snd after) = false /\ user (snd after) = None) /\
  fst after = {| success := true; error := None |}.
Proof.
  cbn. split.
  - intros [H _]. discriminate H.
  - reflexivity.
Qed.

(** C4. Whatever the port's logout resolves to, a failure of any kind
    included, after logout the user and the tokens are null and
    isAuthenticated and isLoading are false. *)
Theorem logout_always_ends_signed_out :
  forall (adapter : AuthAdapter.t) (result : AuthResult unit) (s : AuthState),
    AuthAdapter.logout adapter = result ->
    let s' := execState (logout adapter) s in
    user s' = None /\ tokens s' = None /\
    isAuthenticated s' = false /\ isLoading s' = false.
Proof.
  intros adapter result s _. cbn. repeat split.
Qed.

Lemma logout_always_ends_signed_out_witness :
  let s' := execState
              (logout (Samples.stub (Failure Samples.unavailable)
                                    (Failure Samples.unavailable)
                                    (Success None)
                                    (Failure Samples.unavailable)))
              Samples.signedInAlice in
  user s' = None /\ tokens s' = None /\
  isAuthenticated s' = false /\ isLoading s' = false.
Proof.
  apply (logout_always_ends_signed_out
           (Samples.stub (Failure Samples.unavailable)
                         (Failure Samples.unavailable)
                         (Success None)
                         (Failure Samples.unavailable))
           (Failure Samples.unavailable)
           Samples.signedInAlice).
  reflexivity.
Defined.

(** C5. When the port fails a login or a signup, the stored user and tokens
    (and isAuthenticated) are after the call what they were before it,
    isLoading is false, and the answer carries the message of the failure
    and nothing else. *)
Theorem failed_login_or_signup_keeps_user_and_tokens :
  forall (adapter : AuthAdapter.t) (lc : LoginCredentials)
         (sc : SignupCredentials) (e : AuthError) (s : AuthState),
    (AuthAdapter.login adapter lc = Failure e ->
     runState (login adapter lc) s =
       ({| success := false; error := Some (message e) |},
        {| user := user s; tokens := tokens s;
           isLoading := false; isAuthenticated := isAuthenticated s |})) /\
    (AuthAdapter.signup adapter sc = Failure e ->
     runState (signup adapter sc) s =
       ({| success := false; error := Some (message e) |},
        {| user := user s; tokens := tokens s;
           isLoading := false; isAuthenticated := isAuthenticated s |})).
Proof.
  intros adapter lc sc e s; split; intros Hport.
  - unfold login. cbn. rewrite Hport. reflexivity.
  - unfold signup. cbn. rewrite Hport. reflexivity.
Qed.

Lemma failed_login_or_signup_witness :
  let adapter := Samples.stub (Failure Samples.unavailable) (Success tt)
                              (Success None) (Failure Samples.unavailable) in
  runState (login adapter Samples.credentialsA) Samples.signedInAlice =
    ({| success := false; error := Some "network down" |}, Samples.signedInAlice) /\
  runState (signup adapter Samples.signupA) Samples.signedInAlice =
    ({| success := false; error := Some "network down" |}, Samples.signedInAlice).
Proof.
  pose proof (failed_login_or_signup_keeps_user_and_tokens
                (Samples.stub (Failure Samples.unavailable) (Success tt)
                              (Success None) (Failure Samples.unavailable))
                Samples.credentialsA Samples.signupA Samples.unavailable
                Samples.signedInAlice) as [Hlogin Hsignup].
  split.
  - apply Hlogin. reflexivity.
  - apply Hsignup. reflexivity.
Defined.

(** C3, as the code has it. refreshAuth awaits the port's getCurrentUser
    and nothing else: two ports that agree on it have the same effect,
    whatever their refreshToken.  The stored tokens and isLoading are never
    touched.  On a success with a user, that user is stored and
    isAuthenticated set; on a success without user or a failure the state
    is exactly as before. Nothing is returned to the caller. *)
Theorem refreshAuth_replaces_user_only :
  forall (adapter : AuthAdapter.t) (s : AuthState),
    let s' := execState (refreshAuth adapter) s in
    (forall adapter' : AuthAdapter.t,
        AuthAdapter.getCurrentUser adapter' = AuthAdapter.getCurrentUser adapter ->
        runState (refreshAuth adapter') s = (tt, s')) /\
    tokens s' = tokens s /\
    isLoading s' = isLoading s /\
    match AuthAdapter.getCurrentUser adapter with
    | Success (Some u) => user s' = Some u /\ isAuthenticated s' = true
    | Success None | Failure _ => s' = s
    end.
Proof.
  intros adapter s. unfold refreshAuth. cbn.
  split; [| destruct (AuthAdapter.getCurrentUser adapter) as [[u |] | e];
            cbn; repeat split].
  intros adapter' ->.
  destruct (AuthAdapter.getCurrentUser adapter) as [[u |] | e]; reflexivity.
Qed.

Lemma refreshAuth_replaces_user_only_witness :
  runState
    (refreshAuth (Samples.stub (Failure Samples.unavailable) (Success tt)
                               (Success (Some Samples.bob))
                               (Failure Samples.unavailable)))
    Samples.signedInAlice =
  (tt, execState
         (refreshAuth (Samples.stub (Failure Samples.unavailable) (Success tt)
                                    (Success (Some Samples.bob))
                                    (Success Samples.tokensB)))
         Samples.signedInAlice).
Proof.
  apply (proj1 (refreshAuth_replaces_user_only
                  (Samples.stub (Failure Samples.unavailable) (Success tt)
                                (Success (Some Samples.bob))
                                (Success Samples.tokensB))
                  Samples.signedInAlice)).
  reflexivity.
Defined.

(** C3, as stated, fails: with alice signed in and a port whose
    refreshToken succeeds with new tokens, the refresh operation stores
    none of them and replaces the identity; with a port whose refreshToken
    fails, the state changes all the same. *)
Lemma refreshAuth_ignores_refreshToken :
  let s := Samples.signedInAlice in
  let fresh := Samples.stub (Failure Samples.unavailable) (Success tt)
                            (Success (Some Samples.bob)) (Success Samples.tokensB) in
  let failing := Samples.stub (Failure Samples.unavailable) (Success tt)
                              (Success (Some Samples.bob)) (Failure Samples.unavailable) in
  ~ (tokens (execState (refreshAuth fresh) s) = Some Samples.tokensB /\
     user (execState (refreshAuth fresh) s) = user s) /\
  ~ (execState (refreshAuth failing) s = s).
Proof.
  cbn. split.
  - intros [H _]. discriminate H.
  - intros H. discriminate H.
Qed.

(** ** The AuthProvider over time *)

Lemma with_isLoading_consistent :
  forall (b : bool) (s : AuthState),
    Predicates.consistent s -> Predicates.consistent (with_isLoading b s).
Proof. intros b s H. exact H. Qed.

Lemma stored_user_consistent :
  forall (u : User) (t : option AuthTokens) (l : bool),
    Predicates.consistent
      {| user := Some u; tokens := t; isLoading := l; isAuthenticated := true |}.
Proof. intros; split; intros _; [discriminate | reflexivity]. Qed.

Lemma signedOut_consistent : Predicates.consistent signedOut.
Proof. split; intros H; [discriminate H | now elim H]. Qed.

Lemma called_consistent :
  forall (c : Call) (s : AuthState),
    Predicates.consistent s -> Predicates.consistent (execState (called c) s).
Proof. intros [lc | sc | |] s H; exact H. Qed.

Lemma settled_consistent :
  forall (c : Call) (a : Answer) (k : M Value) (s : AuthState),
    settled c a = Some k ->
    Predicates.consistent s ->
    Predicates.consistent (snd (runState k s)).
Proof.
  intros c a k s Hk Hs.
  destruct c, a as [[d | e] | r | [[u |] | e]]; cbn in Hk;
    try discriminate Hk; injection Hk as <-; cbn;
    first [ exact Hs | apply stored_user_consistent | apply signedOut_consistent ].
Qed.

Lemma step_consistent :
  forall (p p' : Provider) (e : Event),
    step p e = Some p' ->
    Predicates.consistent (current p) -> Predicates.consistent (current p').
Proof.
  intros p p' [m r | u t | c | i a] Hstep Hp; cbn in Hstep.
  - injection Hstep as <-; cbn.
    destruct m; cbn; [| exact Hp].
    destruct r as [[d |] | e]; cbn;
      first [ apply stored_user_consistent | apply signedOut_consistent ].
  - injection Hstep as <-; cbn.
    destruct u; [apply stored_user_consistent |].
    split; intros H; [discriminate H | now elim H].
  - injection Hstep as <-. apply called_consistent, Hp.
  - destruct (nth_error (inFlight p) i) as [c |]; [| discriminate Hstep].
    destruct (settled c a) as [k |] eqn:Hk; [| discriminate Hstep].
    pose proof (settled_consistent c a k (current p) Hk Hp) as Hs.
    destruct (runState k (current p)) as [v s].
    injection Hstep as <-. exact Hs.
Qed.

Lemma run_consistent :
  forall (es : list Event) (p p' : Provider),
    run es p = Some p' ->
    Predicates.consistent (current p) -> Predicates.consistent (current p').
Proof.
  induction es as [| e es IH]; intros p p' Hrun Hp; cbn in Hrun.
  - injection Hrun as <-. exact Hp.
  - destruct (step p e) as [q |] eqn:Hstep; [| discriminate Hrun].
    apply (IH q p' Hrun). apply (step_consistent p q e Hstep Hp).
Qed.

(** A login or signup in flight that the port fails changes isLoading
    only, whatever ran since it was called. *)
Lemma failed_settle_changes_isLoading_only :
  forall (p : Provider) (i : nat) (c : Call) (e : AuthError),
    nth_error (inFlight p) i = Some c ->
    (exists lc, c = CallLogin lc) \/ (exists sc, c = CallSignup sc) ->
    step p (Settle i (SessionAnswer (Failure e))) =
      Some {| current := with_isLoading false (current p);
              inFlight := remove_nth i (inFlight p);
              resolved := resolved p ++
                [(c, Replied {| success := false; error := Some (message e) |})] |}.
Proof.
  intros p i c e Hi [[lc ->] | [sc ->]]; cbn; rewrite Hi; reflexivity.
Qed.

(** A logout in flight signs out when it settles, whatever the port
    answered and whatever else is in flight. *)
Lemma logout_settle_signs_out :
  forall (p : Provider) (i : nat) (result : AuthResult unit),
    nth_error (inFlight p) i = Some CallLogout ->
    step p (Settle i (VoidAnswer result)) =
      Some {| current := signedOut;
              inFlight := remove_nth i (inFlight p);
              resolved := resolved p ++ [(CallLogout, Void)] |}.
Proof.
  intros p i result Hi; cbn; rewrite Hi; reflexivity.
Qed.

(** C9. In the initial state and after any sequence of initialisation,
    provider notifications, calls of login, signup, logout and refreshAuth
    and their completions, in any interleaving, isAuthenticated is true
    exactly when a user is stored. *)
Theorem authenticated_iff_user_stored :
  forall (es : list Event) (p : Provider),
    run es mounted = Some p ->
    isAuthenticated (current p) = true <-> user (current p) <> None.
Proof.
  intros es p Hrun.
  apply (run_consistent es mounted p Hrun).
  split; intros H; [discriminate H | now elim H].
Qed.

Lemma authenticated_iff_user_stored_witness :
  exists p : Provider,
    run [Initialized true (Success None);
         Invoke (CallLogin Samples.credentialsA);
         Settle 0 (SessionAnswer (Success {| session_user := Samples.alice;
                                             session_tokens := Samples.tokensA |}));
         AuthStateChange (Some Samples.alice) (Some Samples.tokensB);
         Invoke CallRefreshAuth;
         Invoke CallLogout;
         Settle 0 (UserAnswer (Success (Some Samples.bob)))]
        mounted = Some p /\
    (isAuthenticated (current p) = true <-> user (current p) <> None).
Proof.
  eexists. split.
  - reflexivity.
  - apply (authenticated_iff_user_stored
             [Initialized true (Success None);
              Invoke (CallLogin Samples.credentialsA);
              Settle 0 (SessionAnswer (Success {| session_user := Samples.alice;
                                                  session_tokens := Samples.tokensA |}));
              AuthStateChange (Some Samples.alice) (Some Samples.tokensB);
              Invoke CallRefreshAuth;
              Invoke CallLogout;
              Settle 0 (UserAnswer (Success (Some Samples.bob)))]).
    reflexivity.
Defined.

(** C2, as the code has it. The provider has no guard on calls: whatever is
    in flight, a call starts at once and joins the calls in flight without
    any answer being produced for it, so that any number of calls may be
    in flight; and a login in flight whose port call succeeds makes its
    transition and answers success, whatever else is in flight. *)
Theorem calls_start_at_once_and_settle_independently :
  forall (p : Provider) (c : Call),
    step p (Invoke c) =
      Some {| current := execState (called c) (current p);
              inFlight := inFlight p ++ [c];
              resolved := resolved p |} /\
    (forall (i : nat) (credentials : LoginCredentials) (data : Session),
        nth_error (inFlight p) i = Some (CallLogin credentials) ->
        step p (Settle i (SessionAnswer (Success data))) =
          Some {| current := {| user := Some (session_user data);
                                tokens := Some (session_tokens data);
                                isLoading := false;
                                isAuthenticated := true |};
                  inFlight := remove_nth i (inFlight p);
                  resolved := resolved p ++
                    [(CallLogin credentials,
                      Replied {| success := true; error := None |})] |}).
Proof.
  intros p c. split; [reflexivity |].
  intros i credentials data Hi. cbn. rewrite Hi. reflexivity.
Qed.

Lemma calls_start_at_once_witness :
  let p := {| current := with_isLoading true signedOut;
              inFlight := [CallLogin Samples.credentialsA;
                           CallLogin Samples.credentialsB];
              resolved := [] |} in
  step p (Settle 1 (SessionAnswer (Success {| session_user := Samples.bob;
                                              session_tokens := Samples.tokensB |}))) =
    Some {| current := {| user := Some Samples.bob;
                          tokens := Some Samples.tokensB;
                          isLoading := false;
                          isAuthenticated := true |};
            inFlight := [CallLogin Samples.credentialsA];
            resolved := [(CallLogin Samples.credentialsB,
                          Replied {| success := true; error := None |})] |}.
Proof.
  apply (proj2 (calls_start_at_once_and_settle_independently
                  {| current := with_isLoading true signedOut;
                     inFlight := [CallLogin Samples.credentialsA;
                                  CallLogin Samples.credentialsB];
                     resolved := [] |}
                  CallLogout)
               1 Samples.credentialsB
               {| session_user := Samples.bob; session_tokens := Samples.tokensB |}).
  reflexivity.
Defined.

(** C2, as stated, fails: two logins issued one after the other are both in
    flight before either settles, neither is answered with a rejection,
    and when both port calls succeed both answer success: two successful
    transitions, the state being that of the one that settled last. *)
Lemma two_logins_race :
  exists p p' : Provider,
    run [Initialized true (Success None);
         Invoke (CallLogin Samples.credentialsA);
         Invoke (CallLogin Samples.credentialsB)] mounted = Some p /\
    ~ (length (inFlight p) <= 1) /\
    resolved p = [] /\
    run [Settle 0 (SessionAnswer (Success {| session_user := Samples.alice;
                                             session_tokens := Samples.tokensA |}));
         Settle 0 (SessionAnswer (Success {| session_user := Samples.bob;
                                             session_tokens := Samples.tokensB |}))]
        p = Some p' /\
    resolved p' =
      [(CallLogin Samples.credentialsA, Replied {| success := true; error := None |});
       (CallLogin Samples.credentialsB, Replied {| success := true; error := None |})] /\
    user (current p') = Some Samples.bob.
Proof.
  do 2 eexists. split; [reflexivity |].
  split; [cbn; lia |].
  split; [reflexivity |].
  split; [reflexivity |].
  split; reflexivity.
Qed.

(** ** The API client *)

Lemma requests_with_getter :
  forall (Getter : Type) (getter : Getter)
         (configs : list ApiClient.InternalAxiosRequestConfig)
         (c : ApiClient.t Getter),
    ApiClient.authTokenGetter c = Some getter ->
    ApiClient.requests configs c =
      {| ApiClient.authTokenGetter := Some getter;
         ApiClient.invoked := ApiClient.invoked c ++ repeat getter (length configs);
         ApiClient.suspended := ApiClient.suspended c ++ configs;
         ApiClient.passed := ApiClient.passed c |}.
Proof.
  intros Getter getter configs.
  induction configs as [| config rest IH]; intros c Hc; cbn.
  - rewrite !app_nil_r. destruct c; cbn in *. now rewrite Hc.
  - rewrite IH.
    + unfold ApiClient.intercept. rewrite Hc. cbn.
      now rewrite <- !app_assoc.
    + unfold ApiClient.intercept. now rewrite Hc.
Qed.

Example resumed_request_carries_bearer :
  ApiClient.resume 0 (Some "jwt")
    (ApiClient.intercept {| ApiClient.url := "/a"; ApiClient.Authorization := None |}
       (ApiClient.setAuthTokenGetter "getAccessToken" ApiClient.loaded)) =
  Some {| ApiClient.authTokenGetter := Some "getAccessToken";
          ApiClient.invoked := ["getAccessToken"];
          ApiClient.suspended := [];
          ApiClient.passed :=
            [ {| ApiClient.url := "/a"; ApiClient.Authorization := Some "Bearer jwt"%string |} ] |}.
Proof. reflexivity. Qed.

(** C8, as the code has it. The request interceptor shares nothing between
    requests: with a getter registered, every request calls the getter
    itself and waits for its own result, so that N requests issued before
    any token arrives make N calls of the getter. *)
Theorem every_request_fetches_its_own_token :
  forall (Getter : Type) (getter : Getter)
         (configs : list ApiClient.InternalAxiosRequestConfig)
         (c : ApiClient.t Getter),
    ApiClient.authTokenGetter c = Some getter ->
    let c' := ApiClient.requests configs c in
    length (ApiClient.invoked c') = length (ApiClient.invoked c) + length configs /\
    ApiClient.suspended c' = ApiClient.suspended c ++ configs /\
    ApiClient.authTokenGetter c' = Some getter.
Proof.
  intros Getter getter configs c Hc.
  rewrite (requests_with_getter Getter getter configs c Hc). cbn.
  rewrite length_app, repeat_length. repeat split.
Qed.

Lemma every_request_fetches_witness :
  let c := ApiClient.setAuthTokenGetter "getAccessToken" ApiClient.loaded in
  let c' := ApiClient.requests
              [ {| ApiClient.url := "/a"; ApiClient.Authorization := None |};
                {| ApiClient.url := "/b"; ApiClient.Authorization := None |};
                {| ApiClient.url := "/c"; ApiClient.Authorization := None |} ] c in
  length (ApiClient.invoked c') = length (ApiClient.invoked c) + 3 /\
  ApiClient.suspended c' =
    ApiClient.suspended c ++
      [ {| ApiClient.url := "/a"; ApiClient.Authorization := None |};
        {| ApiClient.url := "/b"; ApiClient.Authorization := None |};
        {| ApiClient.url := "/c"; ApiClient.Authorization := None |} ] /\
  ApiClient.authTokenGetter c' = Some "getAccessToken".
Proof.
  apply (every_request_fetches_its_own_token string "getAccessToken"
           [ {| ApiClient.url := "/a"; ApiClient.Authorization := None |};
             {| ApiClient.url := "/b"; ApiClient.Authorization := None |};
             {| ApiClient.url := "/c"; ApiClient.Authorization := None |} ]
           (ApiClient.setAuthTokenGetter "getAccessToken" ApiClient.loaded)).
  reflexivity.
Defined.

(** C8, as stated, fails: two requests issued while no token has arrived
    make two calls of the getter, not one. *)
Lemma two_requests_two_fetches :
  let c := ApiClient.requests
             [ {| ApiClient.url := "/a"; ApiClient.Authorization := None |};
               {| ApiClient.url := "/b"; ApiClient.Authorization := None |} ]
             (ApiClient.setAuthTokenGetter "getAccessToken" ApiClient.loaded) in
  ApiClient.invoked c = ["getAccessToken"; "getAccessToken"] /\
  ~ (length (ApiClient.invoked c) = 1).
Proof.
  cbn. split; [reflexivity | discriminate].
Qed.

(* ===================================================================== *)
(** * Further properties of the code *)
(* ===================================================================== *)

(** ** SupabaseAuthAdapter.ts *)

Lemma handleError_never_succeeds :
  forall (T : Type) (error : Js.unknown) (d : T),
    @SupabaseAuthAdapter.handleError T error <> Success d.
Proof.
  intros T error d H.
  destruct (handleError_shape T error) as (e & He & _).
  rewrite He in H. discriminate H.
Qed.

(** X1. initialize reports "no session" as a success without data exactly
    when getSession returned without error and without a session; an
    error or a throw never shows as "no session". *)
Theorem initialize_nothing_to_restore_iff :
  forall client : Supabase.Client,
    SupabaseAuthAdapter.initialize client = Success None <->
    exists r : Supabase.Response (option Supabase.Session),
      Supabase.getSession client = Supabase.Returns r /\
      Supabase.error r = None /\ Supabase.data r = None.
Proof.
  intros client. unfold SupabaseAuthAdapter.initialize, SupabaseAuthAdapter.guarded.
  destruct (Supabase.getSession client) as [[d [o |]] | e]; cbn [Supabase.error Supabase.data].
  - split.
    + intros H. now apply handleError_never_succeeds in H.
    + intros (r & Hr & He & _). injection Hr as <-. discriminate He.
  - split.
    + intros H. destruct d as [session |].
      * destruct (Supabase.user session); [discriminate H |].
        now apply handleError_never_succeeds in H.
      * eexists; repeat split.
    + intros (r & Hr & _ & Hd). injection Hr as <-. cbn in Hd. now rewrite Hd.
  - split.
    + intros H. now apply handleError_never_succeeds in H.
    + intros (r & Hr & _). discriminate Hr.
Qed.

Lemma initialize_nothing_to_restore_witness :
  SupabaseAuthAdapter.initialize
    (Samples.sdk Samples.wrongPassword Samples.awaitingConfirmation) = Success None.
Proof.
  apply (proj2 (initialize_nothing_to_restore_iff
                  (Samples.sdk Samples.wrongPassword Samples.awaitingConfirmation))).
  exists {| Supabase.data := None; Supabase.error := None |}.
  repeat split.
Defined.

(** The shape of login and signup after the SDK call. *)
Lemma session_body_succeeds_iff :
  forall (call : Supabase.outcome (Supabase.Response Supabase.UserSession))
         (text : string) (d : Session),
    SupabaseAuthAdapter.guarded call
      (fun data =>
         match Supabase.data_session data, Supabase.data_user data with
         | Some session, Some u =>
             Success {| session_user := SupabaseAuthAdapter.mapUser u;
                        session_tokens := SupabaseAuthAdapter.mapTokens session |}
         | _, _ => Failure {| code := "NO_SESSION"; message := text; details := None |}
         end) = Success d <->
    exists (r : Supabase.Response Supabase.UserSession)
           (session : Supabase.Session) (u : Supabase.User),
      call = Supabase.Returns r /\
      Supabase.error r = None /\
      Supabase.data_session (Supabase.data r) = Some session /\
      Supabase.data_user (Supabase.data r) = Some u /\
      d = {| session_user := SupabaseAuthAdapter.mapUser u;
             session_tokens := SupabaseAuthAdapter.mapTokens session |}.
Proof.
  intros call text d. unfold SupabaseAuthAdapter.guarded.
  destruct call as [[[du ds] [o |]] | e]; cbn [Supabase.error Supabase.data
    Supabase.data_session Supabase.data_user].
  - split.
    + intros H. now apply handleError_never_succeeds in H.
    + intros (r & session & u & Hr & He & _). injection Hr as <-. discriminate He.
  - split.
    + intros H. destruct ds as [session |], du as [u |]; try discriminate H.
      injection H as <-. exists {| Supabase.data := {| Supabase.data_user := Some u;
                                                        Supabase.data_session := Some session |};
                                   Supabase.error := None |}, session, u.
      repeat split.
    + intros (r & session & u & Hr & _ & Hs & Hu & ->). injection Hr as <-.
      cbn in Hs, Hu. now rewrite Hs, Hu.
  - split.
    + intros H. now apply handleError_never_succeeds in H.
    + intros (r & session & u & Hr & _). discriminate Hr.
Qed.

(** X2. The port's login and signup succeed exactly when the SDK call
    returned without error and with both a session and a user; the result
    then holds that user and the tokens of that session, mapped.  With an
    error in the response the result is a failure even if a session and a
    user came along. *)
Theorem login_and_signup_succeed_iff :
  forall (client : Supabase.Client) (lc : LoginCredentials)
         (sc : SignupCredentials) (d : Session),
    (SupabaseAuthAdapter.login client lc = Success d <->
     exists r session u,
       Supabase.signInWithPassword client (login_email lc) (login_password lc)
         = Supabase.Returns r /\
       Supabase.error r = None /\
       Supabase.data_session (Supabase.data r) = Some session /\
       Supabase.data_user (Supabase.data r) = Some u /\
       d = {| session_user := SupabaseAuthAdapter.mapUser u;
              session_tokens := SupabaseAuthAdapter.mapTokens session |}) /\
    (SupabaseAuthAdapter.signup client sc = Success d <->
     exists r session u,
       Supabase.signUp client (login_email (signup_login sc))
         (login_password (signup_login sc)) (signup_metadata sc)
         = Supabase.Returns r /\
       Supabase.error r = None /\
       Supabase.data_session (Supabase.data r) = Some session /\
       Supabase.data_user (Supabase.data r) = Some u /\
       d = {| session_user := SupabaseAuthAdapter.mapUser u;
              session_tokens := SupabaseAuthAdapter.mapTokens session |}).
Proof.
  intros client lc sc d. split; apply session_body_succeeds_iff.
Qed.

Lemma login_and_signup_succeed_witness :
  SupabaseAuthAdapter.login
    (Fixtures.sdk (Samples.noAnswer None) Fixtures.signedIn) Samples.credentialsA =
  Success {| session_user := SupabaseAuthAdapter.mapUser Fixtures.confirmed;
             session_tokens := SupabaseAuthAdapter.mapTokens Fixtures.sessionA |}.
Proof.
  apply (proj2 (proj1 (login_and_signup_succeed_iff
                         (Fixtures.sdk (Samples.noAnswer None) Fixtures.signedIn)
                         Samples.credentialsA Samples.signupA
                         {| session_user := SupabaseAuthAdapter.mapUser Fixtures.confirmed;
                            session_tokens := SupabaseAuthAdapter.mapTokens Fixtures.sessionA |}))).
  exists {| Supabase.data := {| Supabase.data_user := Some Fixtures.confirmed;
                                Supabase.data_session := Some Fixtures.sessionA |};
            Supabase.error := None |}, Fixtures.sessionA, Fixtures.confirmed.
  repeat split.
Defined.

(** X3. handleError keeps the raw value as details in every case.  For an
    object that has a message the failure carries that message, and as
    code the digits of its status, or UNKNOWN without status; for an
    object without message or a thrown primitive it carries the fixed
    text and UNKNOWN, whatever status the object has. *)
Theorem handleError_cases :
  forall (T : Type) (error : Js.unknown),
    @SupabaseAuthAdapter.handleError T error =
    Failure
      match error with
      | Js.Object o =>
          if Js.has_message o then
            {| code := match Js.status_of o with
                       | Some status => Js.toString status
                       | None => "UNKNOWN"
                       end;
               message := Js.message_of o;
               details := Some error |}
          else
            {| code := "UNKNOWN";
               message := "An unknown error occurred";
               details := Some error |}
      | Js.Primitive _ =>
          {| code := "UNKNOWN";
             message := "An unknown error occurred";
             details := Some error |}
      end.
Proof.
  intros T [v | o]; [reflexivity |].
  unfold SupabaseAuthAdapter.handleError, SupabaseAuthAdapter.isSupabaseError.
  destruct (Js.has_message o) eqn:Hm.
  - unfold SupabaseAuthAdapter.status_toString.
    destruct (Js.status_of o) as [status |]; [| reflexivity].
    unfold Js.or_else. now rewrite toString_truthy.
  - destruct o as [m st | [m |] st]; cbn in Hm; try discriminate Hm. reflexivity.
Qed.

(** X4. On one and the same answer of getSession, whenever initialize
    restores a session, getAccessToken returns the access token of that
    session. *)
Theorem getAccessToken_agrees_with_initialize :
  forall (client : Supabase.Client) (d : Session),
    SupabaseAuthAdapter.initialize client = Success (Some d) ->
    SupabaseAuthAdapter.getAccessToken client = Some (accessToken (session_tokens d)).
Proof.
  intros client d. unfold SupabaseAuthAdapter.initialize,
    SupabaseAuthAdapter.getAccessToken, SupabaseAuthAdapter.guarded.
  destruct (Supabase.getSession client) as [[[session |] [o |]] | e];
    cbn [Supabase.error Supabase.data]; intros H;
    try (now apply handleError_never_succeeds in H); try discriminate H.
  destruct (Supabase.user session) as [u |].
  - injection H as <-. reflexivity.
  - now apply handleError_never_succeeds in H.
Qed.

Lemma getAccessToken_agrees_witness :
  SupabaseAuthAdapter.getAccessToken
    (Fixtures.sdk (Samples.noAnswer (Some Fixtures.sessionA)) Samples.wrongPassword)
  = Some "jwt-A".
Proof.
  apply (getAccessToken_agrees_with_initialize
           (Fixtures.sdk (Samples.noAnswer (Some Fixtures.sessionA)) Samples.wrongPassword)
           {| session_user := SupabaseAuthAdapter.mapUser Fixtures.confirmed;
              session_tokens := SupabaseAuthAdapter.mapTokens Fixtures.sessionA |}).
  reflexivity.
Defined.

(** X5. getAccessToken reads the session of getSession and nothing else:
    an error reported beside a session does not keep the token back, where
    initialize fails on the same answer. *)
Theorem getAccessToken_ignores_the_error_field :
  forall (client : Supabase.Client) (session : Supabase.Session) (o : Js.object),
    Supabase.getSession client =
      Supabase.Returns {| Supabase.data := Some session; Supabase.error := Some o |} ->
    SupabaseAuthAdapter.getAccessToken client = Some (Supabase.access_token session) /\
    exists e : AuthError,
      SupabaseAuthAdapter.initialize client = Failure e /\
      details e = Some (Js.Object o).
Proof.
  intros client session o Hcall.
  unfold SupabaseAuthAdapter.getAccessToken, SupabaseAuthAdapter.initialize,
    SupabaseAuthAdapter.guarded.
  rewrite Hcall; cbn [Supabase.error Supabase.data]. split; [reflexivity |].
  destruct (handleError_shape (option Session) (Js.Object o)) as (e & He & Hd & _).
  exists e. split; assumption.
Qed.

Lemma getAccessToken_ignores_error_witness :
  SupabaseAuthAdapter.getAccessToken
    (Fixtures.sdk
       (Supabase.Returns {| Supabase.data := Some Fixtures.sessionA;
                            Supabase.error := Some Fixtures.networkError |})
       Samples.wrongPassword) = Some "jwt-A" /\
  exists e : AuthError,
    SupabaseAuthAdapter.initialize
      (Fixtures.sdk
         (Supabase.Returns {| Supabase.data := Some Fixtures.sessionA;
                              Supabase.error := Some Fixtures.networkError |})
         Samples.wrongPassword) = Failure e /\
    details e = Some (Js.Object Fixtures.networkError).
Proof.
  apply (getAccessToken_ignores_the_error_field
           (Fixtures.sdk
              (Supabase.Returns {| Supabase.data := Some Fixtures.sessionA;
                                   Supabase.error := Some Fixtures.networkError |})
              Samples.wrongPassword)
           Fixtures.sessionA Fixtures.networkError).
  reflexivity.
Defined.

(** X6. The callback arguments that the adapter derives from a session
    event never hold a user without tokens; handed to the provider's
    callback they give a state that is not loading, that is authenticated
    only with tokens stored, and that is the signed-out state when the
    event has no session. *)
Theorem supabase_event_never_gives_user_without_tokens :
  forall (session : option Supabase.Session) (s : AuthState),
    let args := SupabaseAuthAdapter.onAuthStateChange session in
    let s' := execState (authStateChanged (fst args) (snd args)) s in
    (fst args <> None -> snd args <> None) /\
    (isAuthenticated s' = true -> tokens s' <> None) /\
    (session = None -> s' = signedOut) /\
    isLoading s' = false.
Proof.
  intros [session |] s; cbn.
  - repeat split; try discriminate.
  - repeat split; try discriminate. intros H; now elim H.
Qed.

Lemma supabase_event_witness :
  execState
    (authStateChanged
       (fst (SupabaseAuthAdapter.onAuthStateChange None))
       (snd (SupabaseAuthAdapter.onAuthStateChange None)))
    Samples.signedInAlice = signedOut.
Proof.
  apply (proj1 (proj2 (proj2 (supabase_event_never_gives_user_without_tokens
                                None Samples.signedInAlice)))).
  reflexivity.
Defined.

(** X7. refreshToken succeeds exactly when refreshSession returned
    without error and with a session, and then holds the tokens of that
    session. *)
Theorem refreshToken_succeeds_iff :
  forall (client : Supabase.Client) (tk : AuthTokens),
    SupabaseAuthAdapter.refreshToken client = Success tk <->
    exists r session,
      Supabase.refreshSession client = Supabase.Returns r /\
      Supabase.error r = None /\
      Supabase.data_session (Supabase.data r) = Some session /\
      tk = SupabaseAuthAdapter.mapTokens session.
Proof.
  intros client tk. unfold SupabaseAuthAdapter.refreshToken, SupabaseAuthAdapter.guarded.
  destruct (Supabase.refreshSession client) as [[[du ds] [o |]] | e];
    cbn [Supabase.error Supabase.data Supabase.data_session].
  - split.
    + intros H. now apply handleError_never_succeeds in H.
    + intros (r & session & Hr & He & _). injection Hr as <-. discriminate He.
  - split.
    + intros H. destruct ds as [session |]; [| discriminate H].
      injection H as <-.
      exists {| Supabase.data := {| Supabase.data_user := du;
                                    Supabase.data_session := Some session |};
                Supabase.error := None |}, session.
      repeat split.
    + intros (r & session & Hr & _ & Hs & ->). injection Hr as <-.
      cbn in Hs. now rewrite Hs.
  - split.
    + intros H. now apply handleError_never_succeeds in H.
    + intros (r & session & Hr & _). discriminate Hr.
Qed.

Lemma refreshToken_succeeds_witness :
  SupabaseAuthAdapter.refreshToken Fixtures.refreshing =
  Success (SupabaseAuthAdapter.mapTokens Fixtures.sessionA).
Proof.
  apply (proj2 (refreshToken_succeeds_iff Fixtures.refreshing
                  (SupabaseAuthAdapter.mapTokens Fixtures.sessionA))).
  exists {| Supabase.data := {| Supabase.data_user := Some Fixtures.confirmed;
                                Supabase.data_session := Some Fixtures.sessionA |};
            Supabase.error := None |}, Fixtures.sessionA.
  repeat split.
Defined.

Lemma void_body_succeeds_iff :
  forall (call : Supabase.outcome (Supabase.Response unit)),
    SupabaseAuthAdapter.guarded call (fun _ => Success tt) = Success tt <->
    exists r, call = Supabase.Returns r /\ Supabase.error r = None.
Proof.
  intros [[d [o |]] | e]; unfold SupabaseAuthAdapter.guarded;
    cbn [Supabase.error Supabase.data]; split.
  - intros H. now apply handleError_never_succeeds in H.
  - intros (r & Hr & He). injection Hr as <-. discriminate He.
  - intros _. eexists; split; reflexivity.
  - reflexivity.
  - intros H. now apply handleError_never_succeeds in H.
  - intros (r & Hr & _). discriminate Hr.
Qed.

(** X8. logout, requestPasswordReset and updatePassword succeed exactly
    when their SDK call returned without an error; a reported error or a
    throw is a failure. *)
Theorem void_methods_succeed_iff :
  forall (client : Supabase.Client) (address newPassword : string),
    (SupabaseAuthAdapter.logout client = Success tt <->
     exists r, Supabase.signOut client = Supabase.Returns r /\ Supabase.error r = None) /\
    (SupabaseAuthAdapter.requestPasswordReset client address = Success tt <->
     exists r, Supabase.resetPasswordForEmail client address = Supabase.Returns r /\
               Supabase.error r = None) /\
    (SupabaseAuthAdapter.updatePassword client newPassword = Success tt <->
     exists r, Supabase.updateUser client newPassword = Supabase.Returns r /\
               Supabase.error r = None).
Proof.
  intros client address newPassword. repeat split; apply void_body_succeeds_iff.
Qed.

Lemma void_methods_succeed_witness :
  SupabaseAuthAdapter.logout
    (Samples.sdk Samples.wrongPassword Samples.awaitingConfirmation) = Success tt.
Proof.
  apply (proj2 (proj1 (void_methods_succeed_iff
                         (Samples.sdk Samples.wrongPassword Samples.awaitingConfirmation)
                         "a@b.com" "secret"))).
  exists {| Supabase.data := tt; Supabase.error := None |}. split; reflexivity.
Defined.

(** ** AuthContext.tsx over the Supabase adapter *)

(** X9. When the provider awaits confirmation of the address (signUp
    answers without error and without session), the AuthProvider's signup
    over the Supabase adapter leaves user, tokens and isAuthenticated as
    they were, clears isLoading, and answers failure with the text that
    tells to check the mail. *)
Theorem pending_signup_reaches_the_caller_as_an_error :
  forall (client : Supabase.Client) (sc : SignupCredentials)
         (r : Supabase.Response Supabase.UserSession) (s : AuthState),
    Supabase.signUp client (login_email (signup_login sc))
      (login_password (signup_login sc)) (signup_metadata sc) = Supabase.Returns r ->
    Supabase.error r = None ->
    Supabase.data_session (Supabase.data r) = None ->
    runState (AuthContext.signup (SupabaseAuthAdapter.make client) sc) s =
      ({| success := false;
          error := Some "Signup succeeded but no session. Check email for verification."%string |},
       with_isLoading false s).
Proof.
  intros client sc r s Hcall Herr Hsession.
  unfold AuthContext.signup. cbn.
  unfold SupabaseAuthAdapter.signup, SupabaseAuthAdapter.guarded.
  rewrite Hcall, Herr, Hsession. reflexivity.
Qed.

Lemma pending_signup_witness :
  runState
    (AuthContext.signup
       (SupabaseAuthAdapter.make
          (Samples.sdk Samples.wrongPassword Samples.awaitingConfirmation))
       Samples.signupA)
    signedOut =
  ({| success := false;
      error := Some "Signup succeeded but no session. Check email for verification."%string |},
   signedOut).
Proof.
  apply (pending_signup_reaches_the_caller_as_an_error
           (Samples.sdk Samples.wrongPassword Samples.awaitingConfirmation)
           Samples.signupA
           {| Supabase.data := {| Supabase.data_user := Some Samples.unconfirmed;
                                  Supabase.data_session := None |};
              Supabase.error := None |}
           signedOut); reflexivity.
Defined.

(** X10. A login that the provider rejects with an error object that has
    a message leaves user, tokens and isAuthenticated as they were, clears
    isLoading, and answers failure with exactly the provider's message. *)
Theorem rejected_login_shows_the_provider_message :
  forall (client : Supabase.Client) (lc : LoginCredentials)
         (r : Supabase.Response Supabase.UserSession) (o : Js.object) (s : AuthState),
    Supabase.signInWithPassword client (login_email lc) (login_password lc)
      = Supabase.Returns r ->
    Supabase.error r = Some o ->
    Js.has_message o = true ->
    runState (AuthContext.login (SupabaseAuthAdapter.make client) lc) s =
      ({| success := false; error := Some (Js.message_of o) |},
       with_isLoading false s).
Proof.
  intros client lc r o s Hcall Herr Hm.
  unfold AuthContext.login. cbn.
  unfold SupabaseAuthAdapter.login, SupabaseAuthAdapter.guarded.
  rewrite Hcall, Herr.
  unfold SupabaseAuthAdapter.handleError, SupabaseAuthAdapter.isSupabaseError.
  rewrite Hm. reflexivity.
Qed.

Lemma rejected_login_witness :
  runState
    (AuthContext.login
       (SupabaseAuthAdapter.make
          (Samples.sdk Samples.wrongPassword Samples.awaitingConfirmation))
       Samples.credentialsA)
    signedOut =
  ({| success := false; error := Some "Invalid login credentials"%string |}, signedOut).
Proof.
  apply (rejected_login_shows_the_provider_message
           (Samples.sdk Samples.wrongPassword Samples.awaitingConfirmation)
           Samples.credentialsA
           {| Supabase.data := Samples.nobody;
              Supabase.error := Some (Js.ErrorInstance "Invalid login credentials" (Some 400%N)) |}
           (Js.ErrorInstance "Invalid login credentials" (Some 400%N))
           signedOut); reflexivity.
Defined.

(** X11. A login that the SDK answers with a session and a user ends in
    the authenticated state that holds the provider's user id and mail
    address and the access token of that session, whatever the state was
    before. *)
Theorem accepted_login_stores_the_provider_session :
  forall (client : Supabase.Client) (lc : LoginCredentials)
         (r : Supabase.Response Supabase.UserSession)
         (session : Supabase.Session) (u : Supabase.User) (s : AuthState),
    Supabase.signInWithPassword client (login_email lc) (login_password lc)
      = Supabase.Returns r ->
    Supabase.error r = None ->
    Supabase.data_session (Supabase.data r) = Some session ->
    Supabase.data_user (Supabase.data r) = Some u ->
    let after := runState (AuthContext.login (SupabaseAuthAdapter.make client) lc) s in
    fst after = {| success := true; error := None |} /\
    isAuthenticated (snd after) = true /\
    isLoading (snd after) = false /\
    option_map id (user (snd after)) = Some (Supabase.id u) /\
    option_map email (user (snd after)) = Some (Supabase.email u) /\
    option_map accessToken (tokens (snd after)) = Some (Supabase.access_token session).
Proof.
  intros client lc r session u s Hcall Herr Hs Hu.
  unfold AuthContext.login. cbn.
  unfold SupabaseAuthAdapter.login, SupabaseAuthAdapter.guarded.
  rewrite Hcall, Herr, Hs, Hu. cbn. repeat split.
Qed.

Lemma accepted_login_witness :
  let after := runState
                 (AuthContext.login
                    (SupabaseAuthAdapter.make
                       (Fixtures.sdk (Samples.noAnswer None) Fixtures.signedIn))
                    Samples.credentialsA)
                 signedOut in
  fst after = {| success := true; error := None |} /\
  isAuthenticated (snd after) = true /\
  isLoading (snd after) = false /\
  option_map id (user (snd after)) = Some "u-1"%string /\
  option_map email (user (snd after)) = Some "a@b.com"%string /\
  option_map accessToken (tokens (snd after)) = Some "jwt-A"%string.
Proof.
  apply (accepted_login_stores_the_provider_session
           (Fixtures.sdk (Samples.noAnswer None) Fixtures.signedIn)
           Samples.credentialsA
           {| Supabase.data := {| Supabase.data_user := Some Fixtures.confirmed;
                                  Supabase.data_session := Some Fixtures.sessionA |};
              Supabase.error := None |}
           Fixtures.sessionA Fixtures.confirmed signedOut); reflexivity.
Defined.

(** ** AuthContext.tsx *)

(** X12. Initialisation always ends the loading phase while the provider
    is mounted: afterwards isLoading is false, and the state is
    authenticated with the restored user and tokens when the port restored
    a session and the signed-out state otherwise (no session, or a
    failure).  After unmounting the state is not touched. *)
Theorem initializeAuth_always_ends_loading :
  forall (adapter : AuthAdapter.t) (s : AuthState),
    let s' := execState (AuthContext.initializeAuth adapter) s in
    isLoading s' = false /\
    (forall d : Session,
        AuthAdapter.initialize adapter = Success (Some d) ->
        s' = {| user := Some (session_user d);
                tokens := Some (session_tokens d);
                isLoading := false;
                isAuthenticated := true |}) /\
    ((forall d : Session, AuthAdapter.initialize adapter <> Success (Some d)) ->
     s' = signedOut) /\
    execState (initializeAuth_settled false (AuthAdapter.initialize adapter)) s = s.
Proof.
  intros adapter s. unfold AuthContext.initializeAuth.
  destruct (AuthAdapter.initialize adapter) as [[d |] | e]; cbn; repeat split.
  - intros d' H. injection H as <-. reflexivity.
  - intros H. now elim (H d).
  - intros d H. discriminate H.
  - intros d H. discriminate H.
Qed.

Lemma initializeAuth_witness :
  execState
    (AuthContext.initializeAuth
       (SupabaseAuthAdapter.make
          (Fixtures.sdk (Samples.noAnswer (Some Fixtures.sessionA)) Samples.wrongPassword)))
    initialState =
  {| user := Some (SupabaseAuthAdapter.mapUser Fixtures.confirmed);
     tokens := Some (SupabaseAuthAdapter.mapTokens Fixtures.sessionA);
     isLoading := false;
     isAuthenticated := true |}.
Proof.
  apply (proj1 (proj2 (initializeAuth_always_ends_loading
                         (SupabaseAuthAdapter.make
                            (Fixtures.sdk (Samples.noAnswer (Some Fixtures.sessionA))
                                          Samples.wrongPassword))
                         initialState))
               {| session_user := SupabaseAuthAdapter.mapUser Fixtures.confirmed;
                  session_tokens := SupabaseAuthAdapter.mapTokens Fixtures.sessionA |}).
  reflexivity.
Defined.

(** X13. refreshAuth after logout: when the port still names a current
    user, the state becomes authenticated again with that user and with
    no tokens stored, whatever the logout answered. *)
Theorem refreshAuth_after_logout_authenticates_without_tokens :
  forall (port port' : AuthAdapter.t) (u : User) (s : AuthState),
    AuthAdapter.getCurrentUser port' = Success (Some u) ->
    execState (AuthContext.logout port ;; AuthContext.refreshAuth port') s =
      {| user := Some u; tokens := None; isLoading := false; isAuthenticated := true |}.
Proof.
  intros port port' u s Hcurrent.
  unfold AuthContext.logout, AuthContext.refreshAuth. cbn.
  rewrite Hcurrent. reflexivity.
Qed.

Lemma refreshAuth_after_logout_witness :
  execState
    (AuthContext.logout (Samples.stub (Failure Samples.unavailable) (Success tt)
                                      (Success (Some Samples.bob))
                                      (Failure Samples.unavailable)) ;;
     AuthContext.refreshAuth (Samples.stub (Failure Samples.unavailable) (Success tt)
                                           (Success (Some Samples.bob))
                                           (Failure Samples.unavailable)))
    Samples.signedInAlice =
  {| user := Some Samples.bob; tokens := None; isLoading := false; isAuthenticated := true |}.
Proof.
  apply (refreshAuth_after_logout_authenticates_without_tokens
           (Samples.stub (Failure Samples.unavailable) (Success tt)
                         (Success (Some Samples.bob)) (Failure Samples.unavailable))
           (Samples.stub (Failure Samples.unavailable) (Success tt)
                         (Success (Some Samples.bob)) (Failure Samples.unavailable))
           Samples.bob Samples.signedInAlice).
  reflexivity.
Defined.

Lemma remove_nth_length :
  forall (A : Type) (l : list A) (i : nat) (x : A),
    nth_error l i = Some x -> length (remove_nth i l) = length l - 1.
Proof.
  intros A l. induction l as [| y l IH]; intros [| i] x H; cbn in *; try discriminate H.
  - lia.
  - rewrite (IH i x H). destruct l; [destruct i; discriminate H | cbn; lia].
Qed.

(** X14. isLoading is one flag for all calls: when a login, signup or
    logout in flight settles, isLoading becomes false although every
    other call in flight is still pending. *)
Theorem settling_clears_isLoading_for_all_calls :
  forall (p p' : Provider) (i : nat) (c : Call) (a : Answer),
    nth_error (inFlight p) i = Some c ->
    c <> CallRefreshAuth ->
    step p (Settle i a) = Some p' ->
    isLoading (current p') = false /\
    inFlight p' = remove_nth i (inFlight p) /\
    length (inFlight p') = length (inFlight p) - 1.
Proof.
  intros p p' i c a Hi Hc Hstep. cbn in Hstep. rewrite Hi in Hstep.
  rewrite <- (remove_nth_length _ _ _ _ Hi).
  destruct c, a as [[d | e] | r | r]; cbn in Hstep;
    try discriminate Hstep; try (now elim Hc);
    injection Hstep as <-; cbn; repeat split.
Qed.

Lemma settling_clears_isLoading_witness :
  exists p' : Provider,
    step {| current := with_isLoading true Samples.signedInAlice;
            inFlight := [CallLogout; CallLogin Samples.credentialsB];
            resolved := [] |}
         (Settle 1 (SessionAnswer (Failure Samples.unavailable))) = Some p' /\
    isLoading (current p') = false /\
    inFlight p' = [CallLogout].
Proof.
  eexists. split; [reflexivity |].
  pose proof (settling_clears_isLoading_for_all_calls
                {| current := with_isLoading true Samples.signedInAlice;
                   inFlight := [CallLogout; CallLogin Samples.credentialsB];
                   resolved := [] |}
                _ 1 (CallLogin Samples.credentialsB)
                (SessionAnswer (Failure Samples.unavailable))
                eq_refl ltac:(discriminate) eq_refl) as (H1 & H2 & _).
  split; [exact H1 | exact H2].
Defined.

(** ** ProtectedRoute.tsx *)

(** X15. In every state the provider can reach, the route renders its
    children only if a user is stored and nothing is loading; otherwise it
    renders the loading screen or the redirect. *)
Theorem children_only_for_a_stored_user :
  forall (es : list Event) (p : Provider) (redirectTo : option string)
         (location : string),
    run es mounted = Some p ->
    ProtectedRoute.render redirectTo location (current p) = ProtectedRoute.Children ->
    (exists u : User, user (current p) = Some u) /\ isLoading (current p) = false.
Proof.
  intros es p redirectTo location Hrun Hrender.
  assert (Hc : Predicates.consistent (current p)).
  { apply (run_consistent es mounted p Hrun).
    split; intros H; [discriminate H | now elim H]. }
  unfold ProtectedRoute.render in Hrender.
  destruct (isLoading (current p)); [discriminate Hrender |].
  destruct (isAuthenticated (current p)) eqn:Ha; [| discriminate Hrender].
  split; [| reflexivity].
  destruct (user (current p)) as [u |] eqn:Hu; [now exists u |].
  elim (proj1 Hc Ha). exact Hu.
Qed.

Lemma children_only_witness :
  exists p : Provider,
    run [Initialized true (Success (Some {| session_user := Samples.alice;
                                            session_tokens := Samples.tokensA |}))]
        mounted = Some p /\
    ProtectedRoute.render None "/dashboard" (current p) = ProtectedRoute.Children /\
    (exists u : User, user (current p) = Some u) /\ isLoading (current p) = false.
Proof.
  eexists. split; [reflexivity |]. split; [reflexivity |].
  apply (children_only_for_a_stored_user
           [Initialized true (Success (Some {| session_user := Samples.alice;
                                               session_tokens := Samples.tokensA |}))]
           _ None "/dashboard"); reflexivity.
Defined.

(** From the call of logout on, the route does not render its
    children: it shows the loading screen while the port call is pending
    and, once it settled, redirects to the given target, or to /login
    without one, remembering the location; the port's answer plays no
    part. *)
Theorem logout_leaves_the_protected_route :
  forall (adapter : AuthAdapter.t) (redirectTo : option string)
         (location : string) (s : AuthState),
    ProtectedRoute.render redirectTo location (execState logout_called s)
      = ProtectedRoute.Loading /\
    ProtectedRoute.render redirectTo location (execState (AuthContext.logout adapter) s)
      = ProtectedRoute.Navigate
          (match redirectTo with Some to => to | None => "/login"%string end) location.
Proof.
  intros adapter redirectTo location s. split; reflexivity.
Qed.

(** ** MockAuthAdapter.ts *)

Lemma mock_after_keeps_pairing :
  forall (u : MockAuthAdapter.Use) (m : MockAuthAdapter.t),
    (MockAuthAdapter.mockUser m = None <-> MockAuthAdapter.mockTokens m = None) ->
    (MockAuthAdapter.mockUser (MockAuthAdapter.after m u) = None <->
     MockAuthAdapter.mockTokens (MockAuthAdapter.after m u) = None).
Proof.
  intros [lc | sc | | cb | cb | b | b] m H; cbn; try exact H.
  - unfold MockAuthAdapter.login. destruct (MockAuthAdapter.shouldFailLogin m); cbn;
      [exact H | split; discriminate].
  - unfold MockAuthAdapter.signup, MockAuthAdapter.login.
    destruct (MockAuthAdapter.shouldFailSignup m); cbn; [exact H |].
    destruct (MockAuthAdapter.shouldFailLogin m); cbn; [exact H | split; discriminate].
  - split; reflexivity.
Qed.

Lemma mock_afterAll_keeps_pairing :
  forall (us : list MockAuthAdapter.Use) (m : MockAuthAdapter.t),
    (MockAuthAdapter.mockUser m = None <-> MockAuthAdapter.mockTokens m = None) ->
    (MockAuthAdapter.mockUser (MockAuthAdapter.afterAll us m) = None <->
     MockAuthAdapter.mockTokens (MockAuthAdapter.afterAll us m) = None).
Proof.
  induction us as [| u us IH]; intros m H; cbn.
  - exact H.
  - apply IH. apply mock_after_keeps_pairing, H.
Qed.

(** X16. Whatever a test does with a fresh mock (logins, signups,
    logouts, subscriptions, switching the failure flags), the mock holds a
    user exactly when it holds tokens, so that initialize restores a
    session exactly when getCurrentUser names a user. *)
Theorem mock_user_and_tokens_go_together :
  forall us : list MockAuthAdapter.Use,
    let m := MockAuthAdapter.afterAll us MockAuthAdapter.create in
    (MockAuthAdapter.mockUser m = None <-> MockAuthAdapter.mockTokens m = None) /\
    (MockAuthAdapter.initialize m = Success None <->
     MockAuthAdapter.getCurrentUser m = Success None).
Proof.
  intros us m.
  assert (H : MockAuthAdapter.mockUser m = None <-> MockAuthAdapter.mockTokens m = None).
  { apply mock_afterAll_keeps_pairing. split; reflexivity. }
  split; [exact H |].
  unfold MockAuthAdapter.initialize, MockAuthAdapter.getCurrentUser.
  destruct (MockAuthAdapter.mockUser m) as [u |], (MockAuthAdapter.mockTokens m) as [tk |];
    split; intros E; try reflexivity; try discriminate E.
  - destruct H as [_ Hback]. discriminate (Hback eq_refl).
Qed.

Lemma mock_user_and_tokens_witness :
  let m := MockAuthAdapter.afterAll
             [MockAuthAdapter.UseSubscribe 1;
              MockAuthAdapter.UseLogin Samples.credentialsA;
              MockAuthAdapter.UseFailLogin true;
              MockAuthAdapter.UseSignup Samples.signupA;
              MockAuthAdapter.UseLogout]
             MockAuthAdapter.create in
  MockAuthAdapter.mockUser m = None <-> MockAuthAdapter.mockTokens m = None.
Proof.
  apply (proj1 (mock_user_and_tokens_go_together
                  [MockAuthAdapter.UseSubscribe 1;
                   MockAuthAdapter.UseLogin Samples.credentialsA;
                   MockAuthAdapter.UseFailLogin true;
                   MockAuthAdapter.UseSignup Samples.signupA;
                   MockAuthAdapter.UseLogout])).
Defined.

(** X17. Round trip of the mock: after a login that is not set to fail,
    initialize restores the very session that login returned,
    getCurrentUser names its user, getAccessToken and refreshToken give
    its tokens, and the user carries the mail address of the credentials. *)
Theorem mock_login_round_trip :
  forall (lc : LoginCredentials) (m : MockAuthAdapter.t),
    MockAuthAdapter.shouldFailLogin m = false ->
    let m' := snd (fst (MockAuthAdapter.login lc m)) in
    exists d : Session,
      fst (fst (MockAuthAdapter.login lc m)) = Success d /\
      email (session_user d) = login_email lc /\
      MockAuthAdapter.initialize m' = Success (Some d) /\
      MockAuthAdapter.getCurrentUser m' = Success (Some (session_user d)) /\
      MockAuthAdapter.getAccessToken m' = Some (accessToken (session_tokens d)) /\
      MockAuthAdapter.refreshToken m' = Success (session_tokens d).
Proof.
  intros lc m Hflag. unfold MockAuthAdapter.login. rewrite Hflag. cbn.
  eexists. repeat split.
Qed.

Lemma mock_login_round_trip_witness :
  exists d : Session,
    fst (fst (MockAuthAdapter.login Samples.credentialsA MockAuthAdapter.create)) = Success d /\
    email (session_user d) = "a@b.com"%string /\
    MockAuthAdapter.initialize
      (snd (fst (MockAuthAdapter.login Samples.credentialsA MockAuthAdapter.create)))
      = Success (Some d) /\
    MockAuthAdapter.getCurrentUser
      (snd (fst (MockAuthAdapter.login Samples.credentialsA MockAuthAdapter.create)))
      = Success (Some (session_user d)) /\
    MockAuthAdapter.getAccessToken
      (snd (fst (MockAuthAdapter.login Samples.credentialsA MockAuthAdapter.create)))
      = Some (accessToken (session_tokens d)) /\
    MockAuthAdapter.refreshToken
      (snd (fst (MockAuthAdapter.login Samples.credentialsA MockAuthAdapter.create)))
      = Success (session_tokens d).
Proof.
  apply (mock_login_round_trip Samples.credentialsA MockAuthAdapter.create).
  reflexivity.
Defined.

(** X18. A login or signup of the mock that fails changes no field of the
    mock and calls no callback; and a signup with only shouldFailLogin set
    fails too, with the text of the login. *)
Theorem mock_failure_changes_nothing :
  forall (lc : LoginCredentials) (sc : SignupCredentials) (m m' : MockAuthAdapter.t)
         (e : AuthError) (ns : list MockAuthAdapter.Notification),
    (MockAuthAdapter.login lc m = (Failure e, m', ns) -> m' = m /\ ns = []) /\
    (MockAuthAdapter.signup sc m = (Failure e, m', ns) -> m' = m /\ ns = []) /\
    (MockAuthAdapter.shouldFailSignup m = false ->
     MockAuthAdapter.shouldFailLogin m = true ->
     MockAuthAdapter.signup sc m =
       (Failure {| code := "MOCK_ERROR"; message := "Mock login failed"; details := None |},
        m, [])).
Proof.
  intros lc sc m m' e ns. unfold MockAuthAdapter.signup, MockAuthAdapter.login.
  split; [| split].
  - destruct (MockAuthAdapter.shouldFailLogin m); intros H; inversion H; subst.
    split; reflexivity.
  - destruct (MockAuthAdapter.shouldFailSignup m);
      [| destruct (MockAuthAdapter.shouldFailLogin m)];
      intros H; inversion H; subst; split; reflexivity.
  - intros -> ->. reflexivity.
Qed.

Lemma mock_failure_witness :
  MockAuthAdapter.signup Samples.signupA
    (MockAuthAdapter.set_shouldFailLogin true Fixtures.listened) =
  (Failure {| code := "MOCK_ERROR"; message := "Mock login failed"; details := None |},
   MockAuthAdapter.set_shouldFailLogin true Fixtures.listened, []).
Proof.
  apply (proj2 (proj2 (mock_failure_changes_nothing
                         Samples.credentialsA Samples.signupA
                         (MockAuthAdapter.set_shouldFailLogin true Fixtures.listened)
                         (MockAuthAdapter.set_shouldFailLogin true Fixtures.listened)
                         Samples.unavailable [])));
    reflexivity.
Defined.

(** X19. logout of the mock always succeeds and forgets the session:
    afterwards initialize finds nothing, getCurrentUser and getAccessToken
    give null and refreshToken fails with NO_TOKEN; every registered
    callback was called with (null, null); a second logout changes
    nothing more. *)
Theorem mock_logout_forgets_the_session :
  forall m : MockAuthAdapter.t,
    let m' := snd (fst (MockAuthAdapter.logout m)) in
    fst (fst (MockAuthAdapter.logout m)) = Success tt /\
    MockAuthAdapter.initialize m' = Success None /\
    MockAuthAdapter.getCurrentUser m' = Success None /\
    MockAuthAdapter.getAccessToken m' = None /\
    MockAuthAdapter.refreshToken m' =
      Failure {| code := "NO_TOKEN"; message := "No token to refresh"; details := None |} /\
    snd (MockAuthAdapter.logout m) =
      map (fun cb => (cb, None, None)) (MockAuthAdapter.authStateCallbacks m) /\
    snd (fst (MockAuthAdapter.logout m')) = m'.
Proof.
  intros m. cbn. repeat split.
Qed.



(** X21. The function returned by onAuthStateChange removes every
    registration of its callback, however often it was registered, keeps
    the other callbacks in their order, and is safe to call twice: the
    callback is notified no more, and the second call changes nothing. *)
Theorem mock_unsubscribe_removes_every_registration :
  forall (cb : MockAuthAdapter.Callback) (m : MockAuthAdapter.t),
    let m' := MockAuthAdapter.unsubscribe cb m in
    ~ In cb (MockAuthAdapter.authStateCallbacks m') /\
    ~ In cb (map (fun n => fst (fst n)) (MockAuthAdapter.notifyAuthStateChange m')) /\
    MockAuthAdapter.authStateCallbacks m' =
      filter (fun other => negb (Nat.eqb other cb)) (MockAuthAdapter.authStateCallbacks m) /\
    (forall other, other <> cb ->
       count_occ Nat.eq_dec (MockAuthAdapter.authStateCallbacks m') other =
       count_occ Nat.eq_dec (MockAuthAdapter.authStateCallbacks m) other) /\
    MockAuthAdapter.unsubscribe cb m' = m'.
Proof.
  intros cb m m'.
  assert (Hout : ~ In cb (MockAuthAdapter.authStateCallbacks m')).
  { cbn. intros H. apply filter_In in H. destruct H as [_ H].
    now rewrite Nat.eqb_refl in H. }
  split; [exact Hout |]. split; [| split; [reflexivity | split]].
  - unfold MockAuthAdapter.notifyAuthStateChange. rewrite map_map. cbn [fst].
    now rewrite map_id.
  - intros other Hother. cbn.
    induction (MockAuthAdapter.authStateCallbacks m) as [| x l IH]; [reflexivity |].
    cbn. destruct (Nat.eqb_spec x cb) as [-> | Hx]; cbn.
    + destruct (Nat.eq_dec cb other) as [E | _]; [now elim Hother | exact IH].
    + destruct (Nat.eq_dec x other); now rewrite IH.
  - unfold m', MockAuthAdapter.unsubscribe. cbn. f_equal.
    induction (MockAuthAdapter.authStateCallbacks m) as [| x l IH]; [reflexivity |].
    cbn. destruct (Nat.eqb_spec x cb) as [-> | Hx]; cbn; [exact IH |].
    destruct (Nat.eqb_spec x cb) as [E | _]; [now elim Hx | now rewrite IH].
Qed.

Lemma mock_unsubscribe_witness :
  count_occ Nat.eq_dec
    (MockAuthAdapter.authStateCallbacks (MockAuthAdapter.unsubscribe 7 Fixtures.listened)) 3 =
  count_occ Nat.eq_dec (MockAuthAdapter.authStateCallbacks Fixtures.listened) 3.
Proof.
  apply (proj1 (proj2 (proj2 (proj2 (mock_unsubscribe_removes_every_registration
                                       7 Fixtures.listened))))).
  discriminate.
Defined.

(** ** The AuthProvider over the mock: the repository's tests, for every input *)

(** X22. The hook test, for all credentials, mocks and earlier states:
    with a mock that is not set to fail, login through the provider
    answers success and leaves the provider authenticated and not loading,
    with the user that carries the mail address of the credentials; the
    provider's user and tokens are those the mock holds, and its access
    token is mock-access-token. *)
Theorem provider_login_over_mock_authenticates :
  forall (me : MockAuthAdapter.Callback) (lc : LoginCredentials)
         (m : MockAuthAdapter.t) (s : AuthState),
    MockAuthAdapter.shouldFailLogin m = false ->
    let after := runState (MockedProvider.login me lc m) s in
    let m' := snd (fst after) in
    let s' := snd after in
    fst (fst after) = {| success := true; error := None |} /\
    isAuthenticated s' = true /\ isLoading s' = false /\
    option_map email (user s') = Some (login_email lc) /\
    user s' = MockAuthAdapter.mockUser m' /\
    tokens s' = MockAuthAdapter.mockTokens m' /\
    MockAuthAdapter.getAccessToken m' = Some "mock-access-token"%string.
Proof.
  intros me lc m s Hflag.
  unfold MockedProvider.login, MockAuthAdapter.login. rewrite Hflag.
  cbn -[MockedProvider.deliver].
  match goal with
  | |- context [runState (MockedProvider.deliver ?a ?b) ?c] =>
      destruct (runState (MockedProvider.deliver a b) c) as [[] s1]
  end.
  cbn. repeat split.
Qed.

Lemma provider_login_over_mock_witness :
  let after := runState (MockedProvider.login 7 Samples.credentialsA Fixtures.listened)
                        initialState in
  fst (fst after) = {| success := true; error := None |} /\
  isAuthenticated (snd after) = true /\ isLoading (snd after) = false /\
  option_map email (user (snd after)) = Some "a@b.com"%string /\
  user (snd after) = MockAuthAdapter.mockUser (snd (fst after)) /\
  tokens (snd after) = MockAuthAdapter.mockTokens (snd (fst after)) /\
  MockAuthAdapter.getAccessToken (snd (fst after)) = Some "mock-access-token"%string.
Proof.
  apply (provider_login_over_mock_authenticates 7 Samples.credentialsA
           Fixtures.listened initialState).
  reflexivity.
Defined.

(** X23. The failed-login test, for all credentials, mocks and earlier
    states: with shouldFailLogin set, login through the provider answers
    failure with the text Mock login failed, leaves the mock and the
    provider's user, tokens and isAuthenticated as they were, and clears
    isLoading. *)
Theorem provider_login_over_failing_mock_shows_the_text :
  forall (me : MockAuthAdapter.Callback) (lc : LoginCredentials)
         (m : MockAuthAdapter.t) (s : AuthState),
    MockAuthAdapter.shouldFailLogin m = true ->
    runState (MockedProvider.login me lc m) s =
      (({| success := false; error := Some "Mock login failed"%string |}, m),
       with_isLoading false s).
Proof.
  intros me lc m s Hflag.
  unfold MockedProvider.login, MockAuthAdapter.login. rewrite Hflag. reflexivity.
Qed.

Lemma provider_login_over_failing_mock_witness :
  runState
    (MockedProvider.login 7 Samples.credentialsA
       (MockAuthAdapter.set_shouldFailLogin true Fixtures.listened))
    signedOut =
  (({| success := false; error := Some "Mock login failed"%string |},
    MockAuthAdapter.set_shouldFailLogin true Fixtures.listened),
   signedOut).
Proof.
  apply (provider_login_over_failing_mock_shows_the_text 7 Samples.credentialsA
           (MockAuthAdapter.set_shouldFailLogin true Fixtures.listened) signedOut).
  reflexivity.
Defined.

(** X24. Round trip through the provider: a provider mounted afresh over
    the mock after a successful login restores, by its initialisation,
    exactly the state that the login left; mounted after a logout it ends
    signed out. *)
Theorem remounting_over_mock_restores_the_session :
  forall (me : MockAuthAdapter.Callback) (lc : LoginCredentials)
         (m : MockAuthAdapter.t) (s : AuthState),
    MockAuthAdapter.shouldFailLogin m = false ->
    let after := runState (MockedProvider.login me lc m) s in
    execState (MockedProvider.initializeAuth (snd (fst after))) initialState = snd after /\
    let out := runState (MockedProvider.logout me (snd (fst after))) (snd after) in
    snd out = signedOut /\
    execState (MockedProvider.initializeAuth (fst out)) initialState = signedOut.
Proof.
  intros me lc m s Hflag.
  unfold MockedProvider.login, MockedProvider.logout, MockAuthAdapter.login,
    MockAuthAdapter.logout.
  rewrite Hflag.
  cbn -[MockedProvider.deliver].
  match goal with
  | |- context [runState (MockedProvider.deliver ?a ?b) ?c] =>
      destruct (runState (MockedProvider.deliver a b) c) as [[] s1]
  end.
  cbn -[MockedProvider.deliver].
  split; [reflexivity |].
  match goal with
  | |- context [runState (MockedProvider.deliver ?a ?b) ?c] =>
      destruct (runState (MockedProvider.deliver a b) c) as [[] s2]
  end.
  cbn. split; reflexivity.
Qed.

Lemma remounting_over_mock_witness :
  execState
    (MockedProvider.initializeAuth
       (snd (fst (runState (MockedProvider.login 7 Samples.credentialsA Fixtures.listened)
                           initialState))))
    initialState =
  snd (runState (MockedProvider.login 7 Samples.credentialsA Fixtures.listened) initialState).
Proof.
  apply (proj1 (remounting_over_mock_restores_the_session 7 Samples.credentialsA
                  Fixtures.listened initialState eq_refl)).
Defined.

(** ** adapters/index.ts and config/auth.config.ts *)

(** X25. createAuthAdapter returns an adapter exactly when the provider is
    supabase, the supabase settings are present and createClient accepts
    their url and key; the adapter is then the Supabase adapter over the
    client that createClient made.  An error that createClient throws in
    the constructor leaves the factory as it is. *)
Theorem createAuthAdapter_returns_iff :
  forall (createClient : string -> string -> string + Supabase.Client)
         (config : Adapters.AuthConfig) (a : AuthAdapter.t),
    (Adapters.createAuthAdapter createClient config = inr a <->
     Adapters.provider config = "supabase"%string /\
     exists (settings : Adapters.SupabaseSettings) (client : Supabase.Client),
       Adapters.supabase config = Some settings /\
       createClient (Adapters.url settings) (Adapters.anonKey settings) = inr client /\
       a = SupabaseAuthAdapter.make client) /\
    (forall (settings : Adapters.SupabaseSettings) (thrown : string),
        Adapters.provider config = "supabase"%string ->
        Adapters.supabase config = Some settings ->
        createClient (Adapters.url settings) (Adapters.anonKey settings) = inl thrown ->
        Adapters.createAuthAdapter createClient config = inl thrown).
Proof.
  intros createClient config a. unfold Adapters.createAuthAdapter, Adapters.construct.
  split.
  - destruct (String.eqb_spec (Adapters.provider config) "supabase") as [Hp | Hp].
    + destruct (Adapters.supabase config) as [settings |]; split.
      * destruct (createClient (Adapters.url settings) (Adapters.anonKey settings))
          as [thrown | client] eqn:Hc; intros H; [discriminate H |].
        injection H as <-. split; [exact Hp |]. exists settings, client.
        repeat split. exact Hc.
      * intros (_ & st & client & Hst & Hc & ->). injection Hst as <-.
        now rewrite Hc.
      * discriminate.
      * intros (_ & st & client & Hst & _). discriminate Hst.
    + split.
      * destruct (Adapters.provider config =? "auth0")%string;
          [| destruct (Adapters.provider config =? "cognito")%string]; discriminate.
      * intros (H & _). now elim Hp.
  - intros settings thrown Hp Hs Hc. rewrite Hp, Hs, Hc. reflexivity.
Qed.

Lemma createAuthAdapter_returns_witness :
  Adapters.createAuthAdapter Fixtures.checkingCreateClient
    {| Adapters.provider := "supabase";
       Adapters.supabase := Some {| Adapters.url := "https://x.supabase.co";
                                    Adapters.anonKey := "anon" |};
       Adapters.auth0 := None;
       Adapters.cognito := None |} =
  inr (SupabaseAuthAdapter.make Fixtures.refreshing) /\
  Adapters.createAuthAdapter Fixtures.checkingCreateClient
    {| Adapters.provider := "supabase";
       Adapters.supabase := Some {| Adapters.url := ""; Adapters.anonKey := "anon" |};
       Adapters.auth0 := None;
       Adapters.cognito := None |} =
  inl "supabaseUrl is required."%string.
Proof.
  split.
  - apply (proj2 (proj1 (createAuthAdapter_returns_iff Fixtures.checkingCreateClient
                           {| Adapters.provider := "supabase";
                              Adapters.supabase :=
                                Some {| Adapters.url := "https://x.supabase.co";
                                        Adapters.anonKey := "anon" |};
                              Adapters.auth0 := None;
                              Adapters.cognito := None |}
                           (SupabaseAuthAdapter.make Fixtures.refreshing)))).
    split; [reflexivity |]. do 2 eexists. repeat split.
  - apply (proj2 (createAuthAdapter_returns_iff Fixtures.checkingCreateClient
                    {| Adapters.provider := "supabase";
                       Adapters.supabase :=
                         Some {| Adapters.url := ""; Adapters.anonKey := "anon" |};
                       Adapters.auth0 := None;
                       Adapters.cognito := None |}
                    (SupabaseAuthAdapter.make Fixtures.refreshing))
                 {| Adapters.url := ""; Adapters.anonKey := "anon" |}
                 "supabaseUrl is required."%string);
      reflexivity.
Defined.

(** X26. On the configuration read from the environment the factory's own
    check for missing supabase settings never decides: when
    VITE_AUTH_PROVIDER is not set, empty or supabase, the factory hands
    the two variables to the constructor, with the empty string for each
    one that is not set or empty, and returns or throws as createClient
    does on them; so with a createClient that rejects an empty url, an
    environment without VITE_SUPABASE_URL makes the factory throw the
    error of createClient. *)
Theorem factory_passes_unset_variables_to_createClient :
  forall (createClient : string -> string -> string + Supabase.Client)
         (env : Adapters.ImportMetaEnv),
    Adapters.VITE_AUTH_PROVIDER env = None \/
    Adapters.VITE_AUTH_PROVIDER env = Some ""%string \/
    Adapters.VITE_AUTH_PROVIDER env = Some "supabase"%string ->
    Adapters.createAuthAdapter createClient (Adapters.authConfig env) =
      Adapters.construct createClient
        (Adapters.or_default (Adapters.VITE_SUPABASE_URL env) "")
        (Adapters.or_default (Adapters.VITE_SUPABASE_ANON_KEY env) "") /\
    (forall thrown : string,
        Adapters.VITE_SUPABASE_URL env = None \/
        Adapters.VITE_SUPABASE_URL env = Some ""%string ->
        (forall key : string, createClient ""%string key = inl thrown) ->
        Adapters.createAuthAdapter createClient (Adapters.authConfig env) = inl thrown).
Proof.
  intros createClient env Hprovider.
  assert (Hcfg : Adapters.createAuthAdapter createClient (Adapters.authConfig env) =
                 Adapters.construct createClient
                   (Adapters.or_default (Adapters.VITE_SUPABASE_URL env) "")
                   (Adapters.or_default (Adapters.VITE_SUPABASE_ANON_KEY env) "")).
  { destruct Hprovider as [H | [H | H]];
      unfold Adapters.createAuthAdapter, Adapters.authConfig; rewrite H; reflexivity. }
  split; [exact Hcfg |].
  intros thrown Hurl Hreject. rewrite Hcfg. unfold Adapters.construct.
  destruct Hurl as [-> | ->]; cbn; now rewrite Hreject.
Qed.

Lemma factory_passes_unset_variables_witness :
  Adapters.createAuthAdapter Fixtures.checkingCreateClient
    (Adapters.authConfig {| Adapters.VITE_AUTH_PROVIDER := None;
                            Adapters.VITE_SUPABASE_URL := None;
                            Adapters.VITE_SUPABASE_ANON_KEY := None |}) =
  inl "supabaseUrl is required."%string.
Proof.
  apply (proj2 (factory_passes_unset_variables_to_createClient
                  Fixtures.checkingCreateClient
                  {| Adapters.VITE_AUTH_PROVIDER := None;
                     Adapters.VITE_SUPABASE_URL := None;
                     Adapters.VITE_SUPABASE_ANON_KEY := None |}
                  (or_introl eq_refl))
               "supabaseUrl is required."%string).
  - left. reflexivity.
  - intros key. reflexivity.
Defined.

(** ** tokenStorage.ts *)

(** X27. The two tokens are stored apart: a token written is the token
    read, the last write wins, and writing one token leaves the other and
    every other key of the storage as it was. *)
Theorem tokenStorage_round_trip :
  forall (s : TokenStorage.Storage) (token token' : string),
    TokenStorage.getAccessToken (TokenStorage.setAccessToken token s) = Some token /\
    TokenStorage.getRefreshToken (TokenStorage.setRefreshToken token s) = Some token /\
    TokenStorage.getAccessToken
      (TokenStorage.setAccessToken token' (TokenStorage.setAccessToken token s)) = Some token' /\
    TokenStorage.getRefreshToken (TokenStorage.setAccessToken token s)
      = TokenStorage.getRefreshToken s /\
    TokenStorage.getAccessToken (TokenStorage.setRefreshToken token s)
      = TokenStorage.getAccessToken s /\
    (forall key : string,
        key <> TokenStorage.ACCESS_TOKEN_KEY ->
        TokenStorage.getItem key (TokenStorage.setAccessToken token s)
          = TokenStorage.getItem key s) /\
    (forall key : string,
        key <> TokenStorage.REFRESH_TOKEN_KEY ->
        TokenStorage.getItem key (TokenStorage.setRefreshToken token s)
          = TokenStorage.getItem key s).
Proof.
  intros s token token'. repeat split.
  - intros key Hkey. unfold TokenStorage.setAccessToken, TokenStorage.setItem,
      TokenStorage.getItem.
    destruct (String.eqb_spec key TokenStorage.ACCESS_TOKEN_KEY); [now elim Hkey | reflexivity].
  - intros key Hkey. unfold TokenStorage.setRefreshToken, TokenStorage.setItem,
      TokenStorage.getItem.
    destruct (String.eqb_spec key TokenStorage.REFRESH_TOKEN_KEY); [now elim Hkey | reflexivity].
Qed.

Lemma tokenStorage_round_trip_witness :
  TokenStorage.getItem "theme"
    (TokenStorage.setAccessToken "jwt" (TokenStorage.setItem "theme" "dark" Fixtures.emptyStorage))
  = TokenStorage.getItem "theme" (TokenStorage.setItem "theme" "dark" Fixtures.emptyStorage).
Proof.
  apply (proj1 (proj2 (proj2 (proj2 (proj2 (proj2
           (tokenStorage_round_trip
              (TokenStorage.setItem "theme" "dark" Fixtures.emptyStorage) "jwt" "jwt"))))))).
  discriminate.
Defined.

(** X28. clearTokens removes both tokens, whatever was stored, and
    touches no other key of the storage. *)
Theorem clearTokens_removes_both_and_nothing_else :
  forall s : TokenStorage.Storage,
    TokenStorage.getAccessToken (TokenStorage.clearTokens s) = None /\
    TokenStorage.getRefreshToken (TokenStorage.clearTokens s) = None /\
    (forall key : string,
        key <> TokenStorage.ACCESS_TOKEN_KEY ->
        key <> TokenStorage.REFRESH_TOKEN_KEY ->
        TokenStorage.getItem key (TokenStorage.clearTokens s) = TokenStorage.getItem key s).
Proof.
  intros s. repeat split.
  intros key Ha Hr.
  unfold TokenStorage.clearTokens, TokenStorage.removeItem, TokenStorage.getItem.
  destruct (String.eqb_spec key TokenStorage.REFRESH_TOKEN_KEY); [now elim Hr |].
  destruct (String.eqb_spec key TokenStorage.ACCESS_TOKEN_KEY); [now elim Ha | reflexivity].
Qed.

Lemma clearTokens_witness :
  TokenStorage.getItem "theme"
    (TokenStorage.clearTokens
       (TokenStorage.setRefreshToken "r"
          (TokenStorage.setItem "theme" "dark" Fixtures.emptyStorage)))
  = TokenStorage.getItem "theme"
      (TokenStorage.setRefreshToken "r"
         (TokenStorage.setItem "theme" "dark" Fixtures.emptyStorage)).
Proof.
  apply (proj2 (proj2 (clearTokens_removes_both_and_nothing_else
                         (TokenStorage.setRefreshToken "r"
                            (TokenStorage.setItem "theme" "dark" Fixtures.emptyStorage)))));
    discriminate.
Defined.

(** ** apiClient.ts and App.tsx *)

(** X29. A resumed interceptor hands its request on exactly once and
    never calls the getter again: with no token (null or the empty
    string) the request goes out as it came in, with a token it goes out
    with the header Bearer followed by the token, and its url is never
    changed. *)
Theorem resumed_request_passes_once_without_retry :
  forall (Getter : Type) (i : nat) (token : option string)
         (c c' : ApiClient.t Getter),
    ApiClient.resume i token c = Some c' ->
    ApiClient.invoked c' = ApiClient.invoked c /\
    ApiClient.authTokenGetter c' = ApiClient.authTokenGetter c /\
    length (ApiClient.suspended c') = length (ApiClient.suspended c) - 1 /\
    exists config : ApiClient.InternalAxiosRequestConfig,
      nth_error (ApiClient.suspended c) i = Some config /\
      ApiClient.passed c' = ApiClient.passed c ++ [ApiClient.inject token config] /\
      ApiClient.url (ApiClient.inject token config) = ApiClient.url config /\
      (token = None \/ token = Some ""%string -> ApiClient.inject token config = config) /\
      (forall tk : string,
          token = Some tk -> tk <> ""%string ->
          ApiClient.Authorization (ApiClient.inject token config)
            = Some ("Bearer " ++ tk)%string).
Proof.
  intros Getter i token c c' H. unfold ApiClient.resume in H.
  destruct (nth_error (ApiClient.suspended c) i) as [config |] eqn:Hi; [| discriminate H].
  injection H as <-. cbn.
  repeat split.
  - apply (remove_nth_length _ _ _ _ Hi).
  - exists config. repeat split.
    + destruct token as [[| a tk] |]; reflexivity.
    + intros [-> | ->]; reflexivity.
    + intros tk -> Htk. destruct tk as [| a tk]; [now elim Htk | reflexivity].
Qed.

Lemma resumed_request_witness :
  ApiClient.invoked
    {| ApiClient.authTokenGetter := Some "getAccessToken"%string;
       ApiClient.invoked := ["getAccessToken"%string];
       ApiClient.suspended := [];
       ApiClient.passed := [Fixtures.request] |} =
  ApiClient.invoked
    (ApiClient.intercept Fixtures.request
       (ApiClient.setAuthTokenGetter "getAccessToken"%string ApiClient.loaded)).
Proof.
  apply (proj1 (resumed_request_passes_once_without_retry string 0 None
                  (ApiClient.intercept Fixtures.request
                     (ApiClient.setAuthTokenGetter "getAccessToken"%string ApiClient.loaded))
                  _ eq_refl)).
Defined.

Lemma nth_error_last :
  forall (A : Type) (l : list A) (x : A), nth_error (l ++ [x]) (length l) = Some x.
Proof. intros A l x. induction l as [| y l IH]; [reflexivity | exact IH]. Qed.

Lemma remove_nth_last :
  forall (A : Type) (l : list A) (x : A), remove_nth (length l) (l ++ [x]) = l.
Proof. intros A l x. induction l as [| y l IH]; [reflexivity | cbn; now rewrite IH]. Qed.

(** X30. With the provider's getAccessToken registered over the Supabase
    adapter, as App.tsx does, a request calls the getter once and goes out
    with Bearer and the access token of the session that getSession
    holds; when getSession throws or holds no session it goes out
    unchanged.  Before any registration a request goes out unchanged and
    no getter is called. *)
Theorem request_carries_the_session_access_token :
  forall (client : Supabase.Client) (config : ApiClient.InternalAxiosRequestConfig)
         (c : ApiClient.t AuthAdapter.t),
    let token := SupabaseAuthAdapter.getAccessToken client in
    App.send config (App.registerGetter (SupabaseAuthAdapter.make client) c) =
      Some {| ApiClient.authTokenGetter := Some (SupabaseAuthAdapter.make client);
              ApiClient.invoked := ApiClient.invoked c ++ [SupabaseAuthAdapter.make client];
              ApiClient.suspended := ApiClient.suspended c;
              ApiClient.passed := ApiClient.passed c ++ [ApiClient.inject token config] |} /\
    (forall r session,
        Supabase.getSession client = Supabase.Returns r ->
        Supabase.data r = Some session ->
        Supabase.access_token session <> ""%string ->
        ApiClient.inject token config =
          {| ApiClient.url := ApiClient.url config;
             ApiClient.Authorization :=
               Some ("Bearer " ++ Supabase.access_token session)%string |}) /\
    (forall r,
        Supabase.getSession client = Supabase.Throws r \/
        (exists a, Supabase.getSession client = Supabase.Returns a /\ Supabase.data a = None) ->
        ApiClient.inject token config = config) /\
    App.send config ApiClient.loaded =
      Some {| ApiClient.authTokenGetter := None;
              ApiClient.invoked := [];
              ApiClient.suspended := [];
              ApiClient.passed := [config] |}.
Proof.
  intros client config c token. repeat split.
  - unfold App.send, App.registerGetter, ApiClient.resume, ApiClient.intercept. cbn.
    rewrite nth_error_last, remove_nth_last. reflexivity.
  - intros r session Hr Hd Htk. unfold token, SupabaseAuthAdapter.getAccessToken.
    rewrite Hr, Hd. cbn.
    destruct (Supabase.access_token session) as [| a tk]; [now elim Htk | reflexivity].
  - intros r [Hr | (a & Hr & Hd)]; unfold token, SupabaseAuthAdapter.getAccessToken;
      rewrite Hr; [| rewrite Hd]; reflexivity.
Qed.

Lemma request_carries_the_session_access_token_witness :
  ApiClient.inject
    (SupabaseAuthAdapter.getAccessToken
       (Fixtures.sdk (Samples.noAnswer (Some Fixtures.sessionA)) Samples.wrongPassword))
    Fixtures.request =
  {| ApiClient.url := "/users/me";
     ApiClient.Authorization := Some "Bearer jwt-A"%string |}.
Proof.
  apply (proj1 (proj2 (request_carries_the_session_access_token
                         (Fixtures.sdk (Samples.noAnswer (Some Fixtures.sessionA))
                                       Samples.wrongPassword)
                         Fixtures.request ApiClient.loaded))
               {| Supabase.data := Some Fixtures.sessionA; Supabase.error := None |}
               Fixtures.sessionA eq_refl eq_refl).
  discriminate.
Defined.
